(** * The content pipeline of [src/pages/api/process.ts] and the submission
      form of [src/pages/index.tsx]

    The API route is a sequential chain of calls to outside services
    (HTTP fetches, the OpenAI SDK, JSDOM and Readability) with three ways
    of leaving a function: falling through, [throw] and [return].  It is
    embedded as a state monad over the response object and the log of
    outbound calls, with JavaScript completions as results.  Everything
    that lives outside the two source files (the network, the SDK, the
    DOM libraries, [process.env], [JSON.parse], number formatting) is a
    field of a record [World], so that every theorem holds whatever those
    collaborators answer. *)

From stdpp Require Import base strings list gmap.
From Stdlib Require Import Ascii DecimalString.

Open Scope string_scope.
Set Warnings "-register-all".

(** ** JavaScript values, as far as the route handles them *)
Module JS.

(** The double quote and the line feed, for the template literals. *)
Definition quot : string := String (ascii_of_nat 34) "".
Definition nl : string := String (ascii_of_nat 10) "".

(** What [JSON.parse] and [Response.json] produce.  A number keeps the
    text of its literal: its value as a double is only observed through
    [Number_toString] and [Number_isZero] of the world. *)
Inductive json : Type :=
| JNull
| JBool (b : bool)
| JNum (lit : string)
| JStr (s : string)
| JArr (items : list json)
| JObj (fields : list (string * json)).

(** A value that may be [undefined]. *)
Definition jsval : Type := option json.
Definition undefined : jsval := None.

(** Thrown values: the route throws [Error]s, the runtime [TypeError]s
    and [SyntaxError]s.  The handler only reads [message]. *)
Inductive Exn : Type :=
| Error (msg : string)
| TypeError (msg : string)
| SyntaxError (msg : string).

Definition message (e : Exn) : string :=
  match e with Error m | TypeError m | SyntaxError m => m end.

(** [!s] is false exactly for a non-empty string. *)
Definition truthy_string (s : string) : bool :=
  negb (String.eqb s "").

(** Truthiness of an optional string field ([undefined] is falsy). *)
Definition truthy_field (o : option string) : bool :=
  match o with Some s => truthy_string s | None => false end.

(** Truthiness of an optional boolean field. *)
Definition truthy_flag (o : option bool) : bool :=
  match o with Some b => b | None => false end.

(** Truthiness of a value; [isZero] tells whether a number literal
    denotes zero. *)
Definition truthy_value (isZero : string -> bool) (v : jsval) : bool :=
  match v with
  | None | Some JNull => false
  | Some (JBool b) => b
  | Some (JNum lit) => negb (isZero lit)
  | Some (JStr s) => truthy_string s
  | Some (JArr _) | Some (JObj _) => true
  end.

(** Decimal text of a status code, as a template literal prints it. *)
Definition decimal (n : nat) : string :=
  NilZero.string_of_uint (Nat.to_uint n).

(** Own-property lookup in a parsed object: when a key is repeated in
    the text the later binding is the one that stays. *)
Fixpoint own (k : string) (fields : list (string * json)) : jsval :=
  match fields with
  | [] => None
  | (k', v) :: rest =>
      match own k rest with
      | Some v' => Some v'
      | None => if String.eqb k k' then Some v else None
      end
  end.

(** [v.k] for a key [k] that no built-in prototype defines (the route
    reads [title], [html], [error], [access_token], [message], [url]
    and [id] only): an own property of an object, [undefined] on any
    other value, and a [TypeError] on [null]. *)
Definition Get (v : json) (k : string) : Exn + jsval :=
  match v with
  | JNull =>
      inl (TypeError ("Cannot read properties of null (reading '" ++ k ++ "')"))
  | JObj fields => inr (own k fields)
  | _ => inr undefined
  end.

(** [v?.k]: [undefined] when [v] is [undefined] or [null]. *)
Definition GetOpt (v : jsval) (k : string) : jsval :=
  match v with
  | Some (JObj fields) => own k fields
  | _ => undefined
  end.

(** ** [String.prototype.trim]

    Strings are byte strings in UTF-8.  The white space and line
    terminator code points of ECMAScript are U+0009..U+000D, U+0020,
    U+00A0, U+1680, U+2000..U+200A, U+2028, U+2029, U+202F, U+205F,
    U+3000 and U+FEFF. *)
Definition ascii_space (c : ascii) : bool :=
  let n := nat_of_ascii c in
  (Nat.leb 9 n && Nat.leb n 13) || Nat.eqb n 32.

(** Number of bytes of the white-space code point at the head of [s]
    ([0] when [s] does not start with one). *)
Definition space_width (s : string) : nat :=
  match s with
  | "" => 0
  | String c r =>
      if ascii_space c then 1 else
      match nat_of_ascii c, r with
      | 194, String d _ => if Nat.eqb (nat_of_ascii d) 160 then 2 else 0
      | 225, String d (String e _) =>
          if Nat.eqb (nat_of_ascii d) 154 && Nat.eqb (nat_of_ascii e) 128
          then 3 else 0
      | 226, String d (String e _) =>
          let d := nat_of_ascii d in
          let e := nat_of_ascii e in
          if Nat.eqb d 128 &&
             ((Nat.leb 128 e && Nat.leb e 138) || Nat.eqb e 168 ||
              Nat.eqb e 169 || Nat.eqb e 175)
          then 3
          else if Nat.eqb d 129 && Nat.eqb e 159 then 3 else 0
      | 227, String d (String e _) =>
          if Nat.eqb (nat_of_ascii d) 128 && Nat.eqb (nat_of_ascii e) 128
          then 3 else 0
      | 239, String d (String e _) =>
          if Nat.eqb (nat_of_ascii d) 187 && Nat.eqb (nat_of_ascii e) 191
          then 3 else 0
      | _, _ => 0
      end
  end.

Fixpoint drop_bytes (n : nat) (s : string) : string :=
  match n, s with
  | S n', String _ r => drop_bytes n' r
  | _, _ => s
  end.

(** [trimStart], by fuel on the length of the string. *)
Fixpoint trimStart_fuel (fuel : nat) (s : string) : string :=
  match fuel with
  | 0 => s
  | S fuel' =>
      match space_width s with
      | 0 => s
      | w => trimStart_fuel fuel' (drop_bytes w s)
      end
  end.

Definition trimStart (s : string) : string :=
  trimStart_fuel (String.length s) s.

(** A string of white space only is one that [trimStart] empties. *)
Definition blank (s : string) : bool :=
  String.eqb (trimStart s) "".

Fixpoint trimEnd (s : string) : string :=
  match s with
  | "" => ""
  | String c r => if blank s then "" else String c (trimEnd r)
  end.

Definition trim (s : string) : string := trimEnd (trimStart s).

End JS.

(** ** The API route: [src/pages/api/process.ts] *)
Module Process.
Import JS.

(** *** Data *)

(** [InputBody], process.ts:8-14.  The body arrives as parsed JSON, so at
    run time [type] is any string or absent; the payload fields are
    optional strings and the flag an optional boolean, as declared. *)
Module InputBody.
Record t : Type := mk {
  type : option string;
  text : option string;
  voiceUrl : option string;
  link : option string;
  postToBlogger : option bool
}.
End InputBody.

(** What the handler reads of a [NextApiRequest]: [req.method] and
    [req.body] ([None] for a missing, [null] or empty body). *)
Record NextApiRequest : Type := {
  method : option string;
  body : option InputBody.t
}.

(** The body handed to [res.json]: [{ error }] on the failure paths and
    [{ title, html, imageDataUrl, bloggerPostUrl }] at process.ts:174.  A
    field that is [undefined] is left out of the serialised JSON. *)
Inductive ReplyBody : Type :=
| ErrorBody (error : string)
| ResultBody (title : jsval) (html : string) (imageDataUrl : string)
    (bloggerPostUrl : jsval).

(** The [NextApiResponse] object [res], mutated by [setHeader], [status]
    and [json]. *)
Record ServerResponse : Type := {
  statusCode : nat;
  headers : list (string * list string);
  sent : option ReplyBody
}.

(** An outbound HTTP request, as [fetch] receives it.  The body keeps the
    data that [URLSearchParams.toString] or [JSON.stringify] serialise. *)
Inductive Payload : Type :=
| NoBody
| FormBody (params : list (string * string))
| JsonBody (value : json).

Record FetchRequest : Type := {
  url : string;
  http_method : string;
  http_headers : list (string * string);
  payload : Payload;
  redirect : option string
}.

(** The [Response] of [fetch]: [res.status], and the body that
    [res.text], [res.arrayBuffer] and [res.json] read. *)
Record FetchResponse : Type := {
  status : nat;
  content : string
}.

(** [res.ok]: the status is in the range 200-299. *)
Definition ok (r : FetchResponse) : bool :=
  Nat.leb 200 (status r) && Nat.leb (status r) 299.

(** [new File([buffer], 'audio', { type })], process.ts:36. *)
Record File : Type := {
  bits : string;
  name : string;
  mime : string
}.

(** Parameters of the three OpenAI SDK calls.  [temperature] keeps the
    text of its literal and [response_format] the [type] of the object
    passed; [messages] are pairs of a role and a content. *)
Record TranscriptionParams : Type := {
  file : File;
  transcription_model : string;
  language : string
}.

Record ChatParams : Type := {
  chat_model : string;
  temperature : string;
  messages : list (string * string);
  response_format : string
}.

Record ImageParams : Type := {
  image_model : string;
  prompt : string;
  size : string;
  quality : string;
  n : nat
}.

(** What [Readability.parse] returns, as far as it is read. *)
Record Article : Type := {
  textContent : option string
}.

(** *** The world outside the two source files

    Each collaborator is a function from its request to its answer or to
    the exception it throws.  [chat_completions_create] answers with
    [completion.choices[0]?.message?.content] and [images_generate] with
    [res.data?.[0]?.b64_json] ([None] when the chain is [undefined] or
    [null]); [audio_transcriptions_create] with the [text] of the
    transcription.  [Readability_parse] also returns the document as it
    left it, since it rewrites the DOM it is given, and
    [body_textContent] is [document.body.textContent].  [env] is
    [process.env].  In one run of the handler no collaborator is called
    twice with the same request, so an answer that depends on the request
    alone covers every run. *)
Record World : Type := {
  env : gmap string string;
  fetch : FetchRequest -> Exn + FetchResponse;
  JSON_parse : string -> Exn + json;
  Number_toString : string -> string;
  Number_isZero : string -> bool;
  Document : Type;
  JSDOM : string -> string -> Exn + Document;
  Readability_parse : Document -> Exn + (option Article * Document);
  body_textContent : Document -> option string;
  audio_transcriptions_create : TranscriptionParams -> Exn + string;
  chat_completions_create : ChatParams -> Exn + option string;
  images_generate : ImageParams -> Exn + option string
}.

(** *** Effects *)

(** The outbound calls and the log line, in the order they happen. *)
Inductive Event : Type :=
| Fetch (req : FetchRequest)
| Transcription (p : TranscriptionParams)
| ChatCompletion (p : ChatParams)
| ImageGeneration (p : ImageParams)
| ConsoleError (e : Exn).

Record State : Type := {
  res : ServerResponse;
  calls : list Event
}.

(** A fresh response object and an empty log. *)
Definition init : State :=
  {| res := {| statusCode := 200; headers := []; sent := None |};
     calls := [] |}.

(** How a piece of code ends: normally with a value, by [throw], or by
    the [return] of the enclosing handler. *)
Inductive Completion (A : Type) : Type :=
| Normal (a : A)
| Throw (e : Exn)
| Return.
Arguments Normal {A} a.
Arguments Throw {A} e.
Arguments Return {A}.

Definition M (A : Type) : Type := State -> Completion A * State.

#[global] Instance M_ret : MRet M := fun A a s => (Normal a, s).

#[global] Instance M_bind : MBind M := fun A B f c s =>
  match c s with
  | (Normal a, s') => f a s'
  | (Throw e, s') => (Throw e, s')
  | (Return, s') => (Return, s')
  end.

Definition throw {A : Type} (e : Exn) : M A := fun s => (Throw e, s).

Definition return_ {A : Type} : M A := fun s => (Return, s).

(** A library call that may throw and leaves no trace. *)
Definition lift {A : Type} (r : Exn + A) : M A :=
  match r with inl e => throw e | inr a => mret a end.

(** An outbound call: logged, then answered by the world. *)
Definition call {A : Type} (ev : Event) (answer : Exn + A) : M A := fun s =>
  lift answer {| res := res s; calls := calls s ++ [ev] |}.

(** [try { c } catch (err) { h err }]. *)
Definition try_catch {A : Type} (c : M A) (h : Exn -> M A) : M A := fun s =>
  match c s with
  | (Throw e, s') => h e s'
  | r => r
  end.

(** [res.setHeader], [res.status] and [res.json]. *)
Definition setHeader (k : string) (v : list string) : M unit := fun s =>
  (Normal (),
   {| res := {| statusCode := statusCode (res s);
                headers :=
                  filter (fun h => negb (String.eqb (fst h) k)) (headers (res s))
                  ++ [(k, v)];
                sent := sent (res s) |};
      calls := calls s |}).

Definition set_status (code : nat) : M unit := fun s =>
  (Normal (),
   {| res := {| statusCode := code;
                headers := headers (res s);
                sent := sent (res s) |};
      calls := calls s |}).

Definition send_json (b : ReplyBody) : M unit := fun s =>
  (Normal (),
   {| res := {| statusCode := statusCode (res s);
                headers := headers (res s);
                sent := Some b |};
      calls := calls s |}).

(** [return res.status(code).json(b)]. *)
Definition reply {A : Type} (code : nat) (b : ReplyBody) : M A :=
  set_status code ;; send_json b ;; return_.

Definition console_error (e : Exn) : M unit := fun s =>
  (Normal (), {| res := res s; calls := calls s ++ [ConsoleError e] |}).

(** *** The functions of process.ts, over a world [W] *)
Section Route.
Variable W : World.

(** Truthiness of a value, with the zero test of this world. *)
Definition truthy (v : jsval) : bool := truthy_value (Number_isZero W) v.

(** [ToString] of a parsed value, as a template literal applies it.  An
    array is joined with commas, [null] items printing as nothing; an
    object prints through [Object.prototype.toString] unless an own
    [toString] key (never callable in parsed JSON) hides it, in which
    case the conversion throws. *)
Fixpoint ToString_json (v : json) : Exn + string :=
  match v with
  | JNull => inr "null"
  | JBool b => inr (if b then "true" else "false")
  | JNum lit => inr (Number_toString W lit)
  | JStr s => inr s
  | JArr items =>
      let item (x : json) : Exn + string :=
        match x with JNull => inr "" | _ => ToString_json x end in
      (fix join (l : list json) : Exn + string :=
         match l with
         | [] => inr ""
         | [x] => item x
         | x :: rest =>
             match item x with
             | inl e => inl e
             | inr sx =>
                 match join rest with
                 | inl e => inl e
                 | inr sr => inr (sx ++ "," ++ sr)
                 end
             end
         end) items
  | JObj fields =>
      match own "toString" fields with
      | Some _ => inl (TypeError "Cannot convert object to primitive value")
      | None => inr "[object Object]"
      end
  end.

Definition ToString (v : jsval) : Exn + string :=
  match v with
  | None => inr "undefined"
  | Some j => ToString_json j
  end.

(** [res.json()]: the body parsed as JSON. *)
Definition response_json (r : FetchResponse) : M json :=
  lift (JSON_parse W (content r)).

(** A request with the defaults of [fetch]. *)
Definition GET (u : string) (redir : option string) : FetchRequest :=
  {| url := u; http_method := "GET"; http_headers := []; payload := NoBody;
     redirect := redir |}.

Definition do_fetch (r : FetchRequest) : M FetchResponse :=
  call (Fetch r) (fetch W r).

(** process.ts:16-28 *)
Definition fetchTextFromLink (u : string) : M string :=
  r ← do_fetch (GET u (Some "follow"));
  if negb (ok r) then throw (Error ("Falha ao buscar link: " ++ decimal (status r)))
  else
    let html := content r in
    dom ← lift (JSDOM W html u);
    parsed ← lift (Readability_parse W dom);
    let '(article, dom') := parsed in
    let extracted := article ≫= textContent in
    if truthy_field extracted && Nat.ltb 0 (String.length (trim (default "" extracted)))
    then mret (trim (default "" extracted))
    else
      let text := default "" (body_textContent W dom') in
      mret (trim text).

(** process.ts:30-45 *)
Definition transcribeFromUrl (voiceUrl : string) : M string :=
  r ← do_fetch (GET voiceUrl None);
  if negb (ok r) then throw (Error ("Falha ao baixar ?udio: " ++ decimal (status r)))
  else
    let buffer := content r in
    let f := {| bits := buffer; name := "audio";
                mime := "application/octet-stream" |} in
    let p := {| file := f; transcription_model := "whisper-1";
                language := "pt" |} in
    text ← call (Transcription p) (audio_transcriptions_create W p);
    mret text.

(** The instruction prompt, process.ts:48-59. *)
Definition summary_prompt (input : string) : string :=
  "Voc? ? um redator financeiro em PT-BR. Receba o conte?do a seguir (pode ser transcri??o de voz, texto bruto ou not?cia) e produza:" ++ nl ++
  "- Um t?tulo curto e chamativo (<= 70 caracteres)" ++ nl ++
  "- Um resumo estruturado e objetivo, com subt?tulos quando fizer sentido" ++ nl ++
  "- Tom profissional, educativo, sem jarg?es excessivos" ++ nl ++
  "- Inclua 3 a 5 bullet points de insights pr?ticos" ++ nl ++
  nl ++
  "Retorne APENAS um JSON com as chaves: title, html. N?o inclua c?digo, markdown ou explica??es." ++ nl ++
  nl ++
  "CONTE?DO:" ++ nl ++
  quot ++ quot ++ quot ++ nl ++
  input ++ nl ++
  quot ++ quot ++ quot.

Definition chat_params (input : string) : ChatParams :=
  {| chat_model := "gpt-4o-mini";
     temperature := "0.5";
     messages :=
       [("system", "Voc? escreve resumos para um blog financeiro brasileiro.");
        ("user", summary_prompt input)];
     response_format := "json_object" |}.

(** [content || '{}'], process.ts:70. *)
Definition content_or_empty (content : option string) : string :=
  if truthy_field content then default "" content else "{}".

(** The result of the summariser: [{ title, summaryHtml }]. *)
Record Summary : Type := {
  title : jsval;
  summaryHtml : jsval
}.

(** process.ts:47-73 *)
Definition summarizeFinancePortuguese (input : string) : M Summary :=
  let p := chat_params input in
  completion ← call (ChatCompletion p) (chat_completions_create W p);
  let content := content_or_empty completion in
  parsed ← lift (JSON_parse W content);
  t ← lift (Get parsed "title");
  h ← lift (Get parsed "html");
  mret {| title := t; summaryHtml := h |}.

Definition image_params (subject : string) : ImageParams :=
  {| image_model := "gpt-image-1";
     prompt := "Ilustra??o editorial minimalista e limpa sobre finan?as: " ++
               subject ++ ". Estilo moderno, cores s?brias, sem texto.";
     size := "1024x1024";
     quality := "hd";
     n := 1 |}.

(** process.ts:75-86 *)
Definition generateImageBase64 (subject : jsval) : M string :=
  text ← lift (ToString subject);
  let p := image_params text in
  b64 ← call (ImageGeneration p) (images_generate W p);
  if negb (truthy_field b64) then throw (Error "Falha ao gerar imagem")
  else mret ("data:image/png;base64," ++ default "" b64).

Definition token_endpoint : string := "https://oauth2.googleapis.com/token".

Definition token_request (clientId clientSecret refreshToken : string)
  : FetchRequest :=
  {| url := token_endpoint;
     http_method := "POST";
     http_headers := [("Content-Type", "application/x-www-form-urlencoded")];
     payload := FormBody [("client_id", clientId);
                          ("client_secret", clientSecret);
                          ("refresh_token", refreshToken);
                          ("grant_type", "refresh_token")];
     redirect := None |}.

Definition credentials_missing : string :=
  "Vari?veis GOOGLE_CLIENT_ID/SECRET/REFRESH_TOKEN ausentes".

(** process.ts:88-109 *)
Definition ensureGoogleAccessToken : M jsval :=
  let clientId := env W !! "GOOGLE_CLIENT_ID" in
  let clientSecret := env W !! "GOOGLE_CLIENT_SECRET" in
  let refreshToken := env W !! "GOOGLE_REFRESH_TOKEN" in
  if negb (truthy_field clientId) || negb (truthy_field clientSecret)
     || negb (truthy_field refreshToken)
  then throw (Error credentials_missing)
  else
    r ← do_fetch (token_request (default "" clientId) (default "" clientSecret)
                    (default "" refreshToken));
    json ← response_json r;
    if negb (ok r) then
      err ← lift (Get json "error");
      why ← lift (if truthy err then ToString err
                  else inr (decimal (status r)));
      throw (Error ("OAuth error: " ++ why))
    else
      lift (Get json "access_token").

Definition posts_endpoint (blogId : string) : string :=
  "https://www.googleapis.com/blogger/v3/blogs/" ++ blogId ++
  "/posts/?isDraft=false&fetchImages=true&revert=false".

(** The object given to [JSON.stringify] at process.ts:123-127; a [title]
    that is [undefined] is left out. *)
Definition post_document (t : jsval) (html : string) : json :=
  JObj ([("kind", JStr "blogger#post")] ++
        match t with Some v => [("title", v)] | None => [] end ++
        [("content", JStr html)]).

Definition post_request (blogId bearer : string) (t : jsval) (html : string)
  : FetchRequest :=
  {| url := posts_endpoint blogId;
     http_method := "POST";
     http_headers := [("Authorization", "Bearer " ++ bearer);
                      ("Content-Type", "application/json")];
     payload := JsonBody (post_document t html);
     redirect := None |}.

Definition blog_id_missing : string := "BLOGGER_BLOG_ID ausente".

(** The result of the publisher: [{ url, id }]. *)
Record Post : Type := {
  post_url : jsval;
  post_id : jsval
}.

(** process.ts:111-134 *)
Definition postToBlogger (t : jsval) (html : string) : M Post :=
  let blogId := env W !! "BLOGGER_BLOG_ID" in
  if negb (truthy_field blogId) then throw (Error blog_id_missing)
  else
    accessToken ← ensureGoogleAccessToken;
    bearer ← lift (ToString accessToken);
    r ← do_fetch (post_request (default "" blogId) bearer t html);
    data ← response_json r;
    if negb (ok r) then
      let m := GetOpt (GetOpt (Some data) "error") "message" in
      why ← lift (if truthy m then ToString m
                  else inr (decimal (status r)));
      throw (Error ("Blogger error: " ++ why))
    else
      u ← lift (Get data "url");
      i ← lift (Get data "id");
      mret {| post_url := u; post_id := i |}.

(** process.ts:146-156: the text the pipeline works on, or an early 400. *)
Definition sourceText (b : InputBody.t) : M string :=
  if bool_decide (InputBody.type b = Some "text") then
    if negb (truthy_field (InputBody.text b))
    then reply 400 (ErrorBody "Texto ausente")
    else mret (default "" (InputBody.text b))
  else if bool_decide (InputBody.type b = Some "link") then
    if negb (truthy_field (InputBody.link b))
    then reply 400 (ErrorBody "Link ausente")
    else fetchTextFromLink (default "" (InputBody.link b))
  else if bool_decide (InputBody.type b = Some "voice") then
    if negb (truthy_field (InputBody.voiceUrl b))
    then reply 400 (ErrorBody "voiceUrl ausente")
    else transcribeFromUrl (default "" (InputBody.voiceUrl b))
  else mret "".

(** The template literal of process.ts:161-166, once its three holes are
    strings. *)
Definition wrapper (imageDataUrl t : string) : string :=
  nl ++
  "      <div style=" ++ quot ++ "text-align:center;margin:0 0 16px 0" ++ quot ++ ">" ++ nl ++
  "        <img src=" ++ quot ++ imageDataUrl ++ quot ++
  " alt=" ++ quot ++ t ++ quot ++
  " style=" ++ quot ++ "max-width:100%;height:auto" ++ quot ++ " />" ++ nl ++
  "      </div>" ++ nl ++
  "      ".

Definition html_template (imageDataUrl t fragment : string) : string :=
  wrapper imageDataUrl t ++ fragment ++ nl ++ "    ".

(** process.ts:161-166 *)
Definition render (imageDataUrl : string) (s : Summary) : M string :=
  t ← lift (ToString (title s));
  fragment ← lift (ToString (summaryHtml s));
  mret (html_template imageDataUrl t fragment).

(** process.ts:168-172 *)
Definition publish (b : InputBody.t) (t : jsval) (html : string) : M jsval :=
  if truthy_flag (InputBody.postToBlogger b) then
    post ← postToBlogger t html;
    mret (post_url post)
  else mret undefined.

(** process.ts:146-166: normalise, summarise, illustrate and wrap; the
    three artifacts the rest of the handler uses. *)
Definition artifacts (b : InputBody.t) : M (Summary * string * string) :=
  text ← sourceText b;
  s ← summarizeFinancePortuguese text;
  imageDataUrl ← generateImageBase64 (title s);
  html ← render imageDataUrl s;
  mret (s, imageDataUrl, html).

(** process.ts:143-174, the body of the [try]. *)
Definition pipeline (req : NextApiRequest) : M unit :=
  match body req with
  | None => reply 400 (ErrorBody "Par?metros inv?lidos")
  | Some b =>
      if negb (truthy_field (InputBody.type b))
      then reply 400 (ErrorBody "Par?metros inv?lidos")
      else
        '(s, imageDataUrl, html) ← artifacts b;
        bloggerPostUrl ← publish b (title s) html;
        reply 200 (ResultBody (title s) html imageDataUrl bloggerPostUrl)
  end.

(** process.ts:175-178, the [catch]. *)
Definition on_error (err : Exn) : M unit :=
  console_error err ;;
  reply 500 (ErrorBody (if truthy_string (message err) then message err
                        else "Erro interno")).

(** process.ts:136-179 *)
Definition handler (req : NextApiRequest) : M unit :=
  if negb (bool_decide (method req = Some "POST")) then
    setHeader "Allow" ["POST"] ;;
    reply 405 (ErrorBody "Method not allowed")
  else try_catch (pipeline req) on_error.

(** The state in which the handler leaves a fresh response object. *)
Definition serve (req : NextApiRequest) : State := (handler req init).2.

End Route.
End Process.

(** ** The submission form: [src/pages/index.tsx] *)
Module Index.
Import JS.

(** The union ['text' | 'voice' | 'link'] of the selector, index.tsx:4. *)
Inductive InputType : Type := Text | Voice | Link.

Definition tag (t : InputType) : string :=
  match t with Text => "text" | Voice => "voice" | Link => "link" end.

(** The state of [Home], index.tsx:4-10; [JNull] is [null]. *)
Record Home : Type := {
  inputType : InputType;
  text : string;
  voiceUrl : string;
  link : string;
  posting : bool;
  result : json;
  error : json
}.

(** What the browser provides. *)
Record Browser : Type := {
  fetch : Process.FetchRequest -> Exn + Process.FetchResponse;
  JSON_parse : string -> Exn + json;
  Number_isZero : string -> bool
}.

(** The object literal of index.tsx:21-27. *)
Definition submission (st : Home) : Process.InputBody.t :=
  {| Process.InputBody.type := Some (tag (inputType st));
     Process.InputBody.text :=
       match inputType st with Text => Some (text st) | _ => None end;
     Process.InputBody.voiceUrl :=
       match inputType st with Voice => Some (voiceUrl st) | _ => None end;
     Process.InputBody.link :=
       match inputType st with Link => Some (link st) | _ => None end;
     Process.InputBody.postToBlogger := Some true |}.

(** What [JSON.stringify] writes for such an object: the fields that are
    not [undefined], in the order of the literal. *)
Definition stringify (b : Process.InputBody.t) : json :=
  let field (k : string) (o : option string) : list (string * json) :=
    match o with Some v => [(k, JStr v)] | None => [] end in
  JObj (field "type" (Process.InputBody.type b) ++
        field "text" (Process.InputBody.text b) ++
        field "voiceUrl" (Process.InputBody.voiceUrl b) ++
        field "link" (Process.InputBody.link b) ++
        match Process.InputBody.postToBlogger b with
        | Some f => [("postToBlogger", JBool f)]
        | None => []
        end).

(** The request of index.tsx:18-28. *)
Definition submit_request (st : Home) : Process.FetchRequest :=
  {| Process.url := "/api/process";
     Process.http_method := "POST";
     Process.http_headers := [("Content-Type", "application/json")];
     Process.payload := Process.JsonBody (stringify (submission st));
     Process.redirect := None |}.

(** What one run of [handleSubmit] leaves: the state after the last
    [set...] call, the requests sent, and the exception that escaped. *)
Record Outcome : Type := {
  state : Home;
  requests : list Process.FetchRequest;
  uncaught : option Exn
}.

Definition setPosting (v : bool) (st : Home) : Home :=
  {| inputType := inputType st; text := text st; voiceUrl := voiceUrl st;
     link := link st; posting := v; result := result st; error := error st |}.

Definition setError (v : json) (st : Home) : Home :=
  {| inputType := inputType st; text := text st; voiceUrl := voiceUrl st;
     link := link st; posting := posting st; result := result st; error := v |}.

Definition setResult (v : json) (st : Home) : Home :=
  {| inputType := inputType st; text := text st; voiceUrl := voiceUrl st;
     link := link st; posting := posting st; result := v; error := error st |}.

(** index.tsx:12-40 *)
Definition handleSubmit (B : Browser) (st : Home) : Outcome :=
  let st1 := setResult JNull (setError JNull (setPosting true st)) in
  let rq := submit_request st in
  match fetch B rq with
  | inl e => {| state := st1; requests := [rq]; uncaught := Some e |}
  | inr r =>
      if negb (Process.ok r) then
        let body :=
          match JSON_parse B (Process.content r) with
          | inr v => v
          | inl _ => JObj []
          end in
        let st2 := setPosting false st1 in
        match Get body "error" with
        | inl e => {| state := st2; requests := [rq]; uncaught := Some e |}
        | inr err =>
            let shown :=
              if truthy_value (Number_isZero B) err
              then default JNull err
              else JStr "Erro ao processar." in
            {| state := setError shown st2; requests := [rq]; uncaught := None |}
        end
      else
        match JSON_parse B (Process.content r) with
        | inl e => {| state := st1; requests := [rq]; uncaught := Some e |}
        | inr data =>
            {| state := setResult data (setPosting false st1);
               requests := [rq]; uncaught := None |}
        end
  end.

End Index.

(** ** A reference runtime

    An executable [JSON.parse] for the JSON grammar (ECMA-404), used to
    run the route on concrete scenarios.  The theorems below do not
    depend on it: they hold for every [World]. *)
Module Reference.
Import JS.

Definition code (c : ascii) : nat := nat_of_ascii c.

Definition json_space (c : ascii) : bool :=
  Nat.eqb (code c) 32 || Nat.eqb (code c) 9 || Nat.eqb (code c) 10
  || Nat.eqb (code c) 13.

Fixpoint skip_ws (s : string) : string :=
  match s with
  | String c r => if json_space c then skip_ws r else s
  | "" => ""
  end.

Definition is_digit (c : ascii) : bool :=
  Nat.leb 48 (code c) && Nat.leb (code c) 57.

(** The longest run of digits at the head of [s], and what follows. *)
Fixpoint digits (s : string) : string * string :=
  match s with
  | String c r =>
      if is_digit c then let '(d, r') := digits r in (String c d, r')
      else ("", s)
  | "" => ("", "")
  end.

(** A number literal: an optional minus sign, then 0 or a run of digits
    that does not start with 0, then an optional fraction and an optional
    exponent. *)
Definition scan_number (s : string) : option (string * string) :=
  let '(sign, s1) :=
    match s with
    | String c r => if Nat.eqb (code c) 45 then ("-", r) else ("", s)
    | "" => ("", s)
    end in
  int ← match s1 with
        | String c r =>
            if Nat.eqb (code c) 48 then Some ("0", r)
            else if is_digit c then Some (digits s1)
            else None
        | "" => None
        end;
  let '(ipart, s2) := int in
  frac ← match s2 with
         | String c r =>
             if Nat.eqb (code c) 46 then
               let '(d, r') := digits r in
               if String.eqb d "" then None else Some ("." ++ d, r')
             else Some ("", s2)
         | "" => Some ("", s2)
         end;
  let '(fpart, s3) := frac in
  ex ← match s3 with
       | String c r =>
           if Nat.eqb (code c) 101 || Nat.eqb (code c) 69 then
             let '(sg, r1) :=
               match r with
               | String c' r' =>
                   if Nat.eqb (code c') 43 || Nat.eqb (code c') 45
                   then (String c' "", r') else ("", r)
               | "" => ("", r)
               end in
             let '(d, r2) := digits r1 in
             if String.eqb d "" then None
             else Some (String c "" ++ sg ++ d, r2)
           else Some ("", s3)
       | "" => Some ("", s3)
       end;
  let '(epart, s4) := ex in
  Some (sign ++ ipart ++ fpart ++ epart, s4).

Definition hex (c : ascii) : option N :=
  let k := code c in
  if Nat.leb 48 k && Nat.leb k 57 then Some (N.of_nat (k - 48))
  else if Nat.leb 97 k && Nat.leb k 102 then Some (N.of_nat (k - 87))
  else if Nat.leb 65 k && Nat.leb k 70 then Some (N.of_nat (k - 55))
  else None.

(** A piece of a string literal: a byte of the text, or the UTF-16 code
    unit of a [\uXXXX] escape. *)
Inductive piece : Type :=
| Byte (c : ascii)
| Unit (u : N).

(** The pieces of a string literal after its opening quote, up to the
    closing quote, and what follows. *)
Fixpoint scan_string (s : string) : option (list piece * string) :=
  match s with
  | "" => None
  | String c r =>
      if Nat.eqb (code c) 34 then Some ([], r)
      else if Nat.ltb (code c) 32 then None
      else if Nat.eqb (code c) 92 then
        match r with
        | String e r1 =>
            let simple (k : nat) :=
              '(ps, rest) ← scan_string r1;
              Some (Byte (ascii_of_nat k) :: ps, rest) in
            match code e with
            | 34 => simple 34
            | 92 => simple 92
            | 47 => simple 47
            | 98 => simple 8
            | 102 => simple 12
            | 110 => simple 10
            | 114 => simple 13
            | 116 => simple 9
            | 117 =>
                match r1 with
                | String h1 (String h2 (String h3 (String h4 r2))) =>
                    a ← hex h1; b ← hex h2; c' ← hex h3; d ← hex h4;
                    '(ps, rest) ← scan_string r2;
                    Some (Unit (((a * 16 + b) * 16 + c') * 16 + d)%N :: ps, rest)
                | _ => None
                end
            | _ => None
            end
        | "" => None
        end
      else
        '(ps, rest) ← scan_string r;
        Some (Byte c :: ps, rest)
  end.

Definition byte_of (k : N) : ascii := ascii_of_N k.

(** UTF-8 bytes of a code point (a lone surrogate is encoded like any
    other three-byte code point). *)
Definition utf8 (cp : N) : list ascii :=
  (if cp <? 128 then [byte_of cp]
   else if cp <? 2048 then [byte_of (192 + cp / 64); byte_of (128 + cp mod 64)]
   else if cp <? 65536 then
     [byte_of (224 + cp / 4096); byte_of (128 + (cp / 64) mod 64);
      byte_of (128 + cp mod 64)]
   else
     [byte_of (240 + cp / 262144); byte_of (128 + (cp / 4096) mod 64);
      byte_of (128 + (cp / 64) mod 64); byte_of (128 + cp mod 64)])%N.

Definition high_surrogate (u : N) : bool := ((55296 <=? u) && (u <=? 56319))%N.
Definition low_surrogate (u : N) : bool := ((56320 <=? u) && (u <=? 57343))%N.

(** The bytes a list of pieces stands for; a surrogate pair is one code
    point. *)
Fixpoint bytes_of (ps : list piece) : list ascii :=
  match ps with
  | [] => []
  | Byte c :: rest => c :: bytes_of rest
  | Unit u :: rest =>
      match rest with
      | Unit v :: rest' =>
          if high_surrogate u && low_surrogate v
          then utf8 (65536 + (u - 55296) * 1024 + (v - 56320))%N ++ bytes_of rest'
          else utf8 u ++ bytes_of rest
      | _ => utf8 u ++ bytes_of rest
      end
  end.

Definition string_of_pieces (ps : list piece) : string :=
  String.string_of_list_ascii (bytes_of ps).

(** [s] starts with [p]: what follows [p]. *)
Fixpoint after (p s : string) : option string :=
  match p, s with
  | "", _ => Some s
  | String a p', String b s' => if Ascii.eqb a b then after p' s' else None
  | _, "" => None
  end.

(** A value at the head of [s], and what follows.  The fuel bounds the
    nesting depth; the two inner loops run over the items of an array
    and the members of an object. *)
Fixpoint parse_value (fuel : nat) (s : string) : option (json * string) :=
  match fuel with
  | 0 => None
  | S fuel' =>
      match skip_ws s with
      | "" => None
      | String c r as s0 =>
          if Nat.eqb (code c) 123 then
            match skip_ws r with
            | String c1 r1 as r0 =>
                if Nat.eqb (code c1) 125 then Some (JObj [], r1)
                else
                  (fix members (g : nat) (t : string)
                     : option (list (string * json) * string) :=
                     match g with
                     | 0 => None
                     | S g' =>
                         match skip_ws t with
                         | String q t1 =>
                             if Nat.eqb (code q) 34 then
                               '(ps, t2) ← scan_string t1;
                               match skip_ws t2 with
                               | String colon t3 =>
                                   if Nat.eqb (code colon) 58 then
                                     '(v, t4) ← parse_value fuel' t3;
                                     match skip_ws t4 with
                                     | String d t5 =>
                                         if Nat.eqb (code d) 44 then
                                           '(more, t6) ← members g' t5;
                                           Some ((string_of_pieces ps, v) :: more, t6)
                                         else if Nat.eqb (code d) 125 then
                                           Some ([(string_of_pieces ps, v)], t5)
                                         else None
                                     | "" => None
                                     end
                                   else None
                               | "" => None
                               end
                             else None
                         | "" => None
                         end
                     end) fuel' r0
                  ≫= fun '(fields, rest) => Some (JObj fields, rest)
            | "" => None
            end
          else if Nat.eqb (code c) 91 then
            match skip_ws r with
            | String c1 r1 as r0 =>
                if Nat.eqb (code c1) 93 then Some (JArr [], r1)
                else
                  (fix items (g : nat) (t : string)
                     : option (list json * string) :=
                     match g with
                     | 0 => None
                     | S g' =>
                         '(v, t1) ← parse_value fuel' t;
                         match skip_ws t1 with
                         | String d t2 =>
                             if Nat.eqb (code d) 44 then
                               '(more, t3) ← items g' t2;
                               Some (v :: more, t3)
                             else if Nat.eqb (code d) 93 then Some ([v], t2)
                             else None
                         | "" => None
                         end
                     end) fuel' r0
                  ≫= fun '(vs, rest) => Some (JArr vs, rest)
            | "" => None
            end
          else if Nat.eqb (code c) 34 then
            '(ps, rest) ← scan_string r;
            Some (JStr (string_of_pieces ps), rest)
          else if Nat.eqb (code c) 45 || is_digit c then
            '(lit, rest) ← scan_number s0;
            Some (JNum lit, rest)
          else
            match after "true" s0, after "false" s0, after "null" s0 with
            | Some rest, _, _ => Some (JBool true, rest)
            | _, Some rest, _ => Some (JBool false, rest)
            | _, _, Some rest => Some (JNull, rest)
            | _, _, _ => None
            end
      end
  end.

(** [JSON.parse]: one value, white space around it, nothing else.  The
    wording of the [SyntaxError] differs between engines. *)
Definition JSON_parse (s : string) : Exn + json :=
  match parse_value (S (String.length s)) s with
  | Some (v, rest) =>
      if String.eqb (skip_ws rest) "" then inr v
      else inl (SyntaxError "Unexpected non-whitespace character after JSON")
  | None => inl (SyntaxError "Unexpected token in JSON")
  end.

End Reference.

(** ** What is observed of a run *)
Module Observation.
Import JS Process.

(** *** States *)

(** The state [s] with one more line in the log. *)
Definition logged (ev : Event) (s : State) : State :=
  {| res := res s; calls := calls s ++ [ev] |}.

(** The state after [return res.status(code).json(b)]. *)
Definition replied (code : nat) (b : ReplyBody) (s : State) : State :=
  {| res := {| statusCode := code; headers := headers (res s); sent := Some b |};
     calls := calls s |}.

(** The state after the [catch] block ran on [e]. *)
Definition failed (e : Exn) (s : State) : State :=
  replied 500
    (ErrorBody (if truthy_string (message e) then message e else "Erro interno"))
    {| res := res s; calls := calls s ++ [ConsoleError e] |}.

(** The handler answered 400 with the message [m] and called nobody. *)
Definition rejected (W : World) (req : NextApiRequest) (m : string) : Prop :=
  statusCode (res (serve W req)) = 400 /\
  sent (res (serve W req)) = Some (ErrorBody m) /\
  calls (serve W req) = [].

(** *** Events *)



(** The events of each stage. *)
Inductive normalizer_event : Event -> Prop :=
| download u rd : normalizer_event (Fetch (GET u rd))
| transcription p : normalizer_event (Transcription p).

Inductive summarizer_event : Event -> Prop :=
| chat_completion p : summarizer_event (ChatCompletion p).

Inductive illustrator_event : Event -> Prop :=
| image_generation p : illustrator_event (ImageGeneration p).

Inductive token_event : Event -> Prop :=
| token_exchange a b c : token_event (Fetch (token_request a b c)).

Inductive post_event : Event -> Prop :=
| create_post blogId bearer t html :
    post_event (Fetch (post_request blogId bearer t html)).

(** The events that come before publishing. *)
Definition artifact_event (e : Event) : Prop :=
  normalizer_event e \/ summarizer_event e \/ illustrator_event e.

(** A POST to the token endpoint. *)
Definition is_token_exchange (e : Event) : bool :=
  match e with
  | Fetch r => String.eqb (http_method r) "POST" && String.eqb (url r) token_endpoint
  | _ => false
  end.

(** A POST to the posts collection of some blog. *)
Definition is_create_post (e : Event) : bool :=
  match e with
  | Fetch r =>
      String.eqb (http_method r) "POST" &&
      String.prefix "https://www.googleapis.com/blogger/v3/blogs/" (url r)
  | _ => false
  end.

(** *** Judgements on a piece of code *)

(** [io P c]: whatever the state, [c] does not return from the handler,
    leaves the response object alone, and adds to the log only events
    that satisfy [P]. *)
Definition io {A : Type} (P : Event -> Prop) (c : M A) : Prop :=
  forall s,
    (c s).1 <> Return /\ res (c s).2 = res s /\
    exists new, calls (c s).2 = (calls s ++ new)%list /\ Forall P new.

(** [stage P c]: like [io P c], except that [c] may also leave the
    handler early, and then with a 400 and an error body. *)
Definition stage {A : Type} (P : Event -> Prop) (c : M A) : Prop :=
  forall s,
    (exists new, calls (c s).2 = (calls s ++ new)%list /\ Forall P new) /\
    match (c s).1 with
    | Return =>
        statusCode (res (c s).2) = 400 /\
        exists m, sent (res (c s).2) = Some (ErrorBody m)
    | _ => res (c s).2 = res s
    end.

(** [silent c]: [c] changes nothing and does not return from the
    handler. *)
Definition silent {A : Type} (c : M A) : Prop :=
  forall s, (c s).2 = s /\ (c s).1 <> Return.

(** *** The configuration *)

(** The three OAuth credentials are all set. *)
Definition credentials_set (W : World) : bool :=
  truthy_field (env W !! "GOOGLE_CLIENT_ID") &&
  truthy_field (env W !! "GOOGLE_CLIENT_SECRET") &&
  truthy_field (env W !! "GOOGLE_REFRESH_TOKEN").

Definition blog_id_set (W : World) : bool :=
  truthy_field (env W !! "BLOGGER_BLOG_ID").

(** The message of the configuration error the publisher throws when a
    credential is missing: the blog identifier is looked at first. *)
Definition configuration_error (W : World) : string :=
  if blog_id_set W then credentials_missing else blog_id_missing.

End Observation.

(** ** The form and the route together *)
Module Delivery.
Import JS Process.

(** The request the route receives when the form of [st] is submitted:
    the method of the fetch, and as [req.body] the object the form
    serialised, which the body parser reads back field by field (a field
    that was [undefined] is absent on both sides). *)
Definition arrives (st : Index.Home) : NextApiRequest :=
  {| method := Some (http_method (Index.submit_request st));
     body := Some (Index.submission st) |}.

(** The payload of the variant that is selected. *)
Definition selected (st : Index.Home) : string :=
  match Index.inputType st with
  | Index.Text => Index.text st
  | Index.Voice => Index.voiceUrl st
  | Index.Link => Index.link st
  end.

(** The validation message of each variant, process.ts:148, 151, 154. *)
Definition missing_message (t : Index.InputType) : string :=
  match t with
  | Index.Text => "Texto ausente"
  | Index.Voice => "voiceUrl ausente"
  | Index.Link => "Link ausente"
  end.

(** The handler answered with status [code] and body [b], and [log] is
    everything it called and logged. *)
Definition answered (W : World) (req : NextApiRequest) (code : nat)
  (b : ReplyBody) (log : list Event) : Prop :=
  statusCode (res (serve W req)) = code /\
  sent (res (serve W req)) = Some b /\
  calls (serve W req) = log.

Definition is_console_error (e : Event) : bool :=
  match e with ConsoleError _ => true | _ => false end.

(** The configuration holds the three credentials and the blog
    identifier, none of them empty. *)
Definition configured (W : World) (clientId clientSecret refreshToken blogId : string)
  : Prop :=
  env W !! "GOOGLE_CLIENT_ID" = Some clientId /\ clientId <> "" /\
  env W !! "GOOGLE_CLIENT_SECRET" = Some clientSecret /\ clientSecret <> "" /\
  env W !! "GOOGLE_REFRESH_TOKEN" = Some refreshToken /\ refreshToken <> "" /\
  env W !! "BLOGGER_BLOG_ID" = Some blogId /\ blogId <> "".

(** The token endpoint answers the refresh-token grant of these
    credentials with a success status and a JSON value other than null,
    whose [access_token] prints as [bearer]. *)
Definition token_granted (W : World) (clientId clientSecret refreshToken bearer : string)
  : Prop :=
  exists r j,
    fetch W (token_request clientId clientSecret refreshToken) = inr r /\
    ok r = true /\
    JSON_parse W (content r) = inr j /\ j <> JNull /\
    ToString W (GetOpt (Some j) "access_token") = inr bearer.

(** What [res.json] writes for an error body, process.ts:139-177. *)
Definition error_json (m : string) : json := JObj [("error", JStr m)].

(** The state of the form while a submission is in flight,
    index.tsx:14-16. *)
Definition in_flight (st : Index.Home) : Index.Home :=
  Index.setResult JNull (Index.setError JNull (Index.setPosting true st)).

(** The parameters of the transcription of a downloaded recording,
    process.ts:36-41. *)
Definition transcription_of (audio : string) : TranscriptionParams :=
  {| file := {| bits := audio; name := "audio";
                mime := "application/octet-stream" |};
     transcription_model := "whisper-1";
     language := "pt" |}.

End Delivery.

(** ** Scenarios: concrete worlds and requests *)
Module Scenario.
Import JS Process.

Definition q (s : string) : string := quot ++ s ++ quot.

Definition env_full : gmap string string :=
  list_to_map [("GOOGLE_CLIENT_ID", "client-1");
               ("GOOGLE_CLIENT_SECRET", "s3cret");
               ("GOOGLE_REFRESH_TOKEN", "1//refresh");
               ("BLOGGER_BLOG_ID", "4242")].

(** No blog identifier, the three credentials present. *)
Definition env_no_blog : gmap string string :=
  list_to_map [("GOOGLE_CLIENT_ID", "client-1");
               ("GOOGLE_CLIENT_SECRET", "s3cret");
               ("GOOGLE_REFRESH_TOKEN", "1//refresh")].

(** The refresh token is missing. *)
Definition env_no_refresh : gmap string string :=
  list_to_map [("GOOGLE_CLIENT_ID", "client-1");
               ("GOOGLE_CLIENT_SECRET", "s3cret");
               ("BLOGGER_BLOG_ID", "4242")].

Definition page : string :=
  "<html><body><nav>Menu</nav><article>Copom eleva a Selic.</article></body></html>".

Definition token_json : string :=
  "{" ++ q "access_token" ++ ":" ++ q "ya29.a0" ++ "}".

Definition post_json : string :=
  "{" ++ q "url" ++ ":" ++ q "https://blog.example/2026/11/selic.html" ++ "," ++
  q "id" ++ ":" ++ q "7" ++ "}".

(** A network on which every service of the route answers 200. *)
Definition network (r : FetchRequest) : Exn + FetchResponse :=
  if String.eqb (url r) "https://example.com/selic" then
    inr {| status := 200; content := page |}
  else if String.eqb (url r) "https://example.com/audio.ogg" then
    inr {| status := 200; content := "OggS" |}
  else if String.eqb (url r) token_endpoint then
    inr {| status := 200; content := token_json |}
  else if String.eqb (url r) (posts_endpoint "4242") then
    inr {| status := 200; content := post_json |}
  else inr {| status := 404; content := "Not Found" |}.

(** Integer literals print as written, and are zero when no digit from 1
    to 9 occurs in them; the scenarios use no other number. *)
Definition Number_toString (lit : string) : string :=
  if String.eqb lit "-0" then "0" else lit.

Fixpoint Number_isZero (lit : string) : bool :=
  match lit with
  | "" => true
  | String c r =>
      if Nat.leb 49 (nat_of_ascii c) && Nat.leb (nat_of_ascii c) 57 then false
      else Number_isZero r
  end.

(** A world with mocked collaborators: the configuration [e], the answer
    [chat] of the chat completion and the [article] Readability finds are
    left open.  The document is the markup itself. *)
Definition mock (e : gmap string string) (chat : Exn + option string)
  (article : option Article) : World :=
  {| env := e;
     fetch := network;
     JSON_parse := Reference.JSON_parse;
     Process.Number_toString := Number_toString;
     Process.Number_isZero := Number_isZero;
     Document := string;
     JSDOM := fun html _ => inr html;
     Readability_parse := fun dom => inr (article, dom);
     body_textContent := fun _ => Some (" Menu Copom eleva a Selic. " ++ nl);
     audio_transcriptions_create := fun _ => inr "O Copom elevou a Selic.";
     chat_completions_create := fun _ => chat;
     images_generate := fun _ => inr (Some "iVBORw0KGgo=") |}.

Definition good_summary : string :=
  "{" ++ q "title" ++ ":" ++ q "Selic em alta" ++ "," ++
  q "html" ++ ":" ++ q "<p>O Copom elevou a Selic.</p>" ++ "}".


Definition found : option Article :=
  Some {| textContent := Some ("  Copom eleva a Selic. " ++ nl) |}.

Definition nothing_found : option Article :=
  Some {| textContent := Some ("   " ++ nl) |}.

Definition happy : World := mock env_full (inr (Some good_summary)) found.



(** Readability finds white space only. *)
Definition blank_page : World :=
  mock env_full (inr (Some good_summary)) nothing_found.

Definition no_blog : World := mock env_no_blog (inr (Some good_summary)) found.

Definition no_refresh : World :=
  mock env_no_refresh (inr (Some good_summary)) found.

Definition copom : string := "O Copom elevou a Selic em 0,25 ponto.".

Definition image : string := "data:image/png;base64,iVBORw0KGgo=".

Definition post (b : InputBody.t) : NextApiRequest :=
  {| method := Some "POST"; body := Some b |}.

Definition text_body (publishing : option bool) : InputBody.t :=
  {| InputBody.type := Some "text";
     InputBody.text := Some copom;
     InputBody.voiceUrl := None;
     InputBody.link := None;
     InputBody.postToBlogger := publishing |}.

(** Bodies of each variant without their payload field. *)
Definition empty_body (type : string) : InputBody.t :=
  {| InputBody.type := Some type;
     InputBody.text := None;
     InputBody.voiceUrl := None;
     InputBody.link := None;
     InputBody.postToBlogger := Some true |}.

Definition link_body : InputBody.t :=
  {| InputBody.type := Some "link";
     InputBody.text := None;
     InputBody.voiceUrl := None;
     InputBody.link := Some "https://example.com/selic";
     InputBody.postToBlogger := None |}.

End Scenario.

(** ** Scenarios with failing collaborators *)
Module Failures.
Import JS Process Scenario.

(** Like [Scenario.mock] on the full configuration, with the network and
    the answers of the chat completion and of the image service left
    open. *)
Definition world (net : FetchRequest -> Exn + FetchResponse)
  (chat : Exn + option string) (images : Exn + option string) : World :=
  {| env := env_full;
     fetch := net;
     JSON_parse := Reference.JSON_parse;
     Process.Number_toString := Number_toString;
     Process.Number_isZero := Number_isZero;
     Document := string;
     JSDOM := fun html _ => inr html;
     Readability_parse := fun dom => inr (found, dom);
     body_textContent := fun _ => Some "Menu Copom eleva a Selic.";
     audio_transcriptions_create := fun _ => inr "O Copom elevou a Selic.";
     chat_completions_create := fun _ => chat;
     images_generate := fun _ => images |}.

(** The network of [Scenario], except that the address [u] answers with
    [status] and [content]. *)
Definition except (u : string) (status : nat) (content : string)
  (r : FetchRequest) : Exn + FetchResponse :=
  if String.eqb (url r) u then inr {| status := status; content := content |}
  else network r.

Definition picture : Exn + option string := inr (Some "iVBORw0KGgo=").

Definition summary : Exn + option string := inr (Some good_summary).

(** The page is gone. *)
Definition page_gone : World :=
  world (except "https://example.com/selic" 404 "Not Found") summary picture.

(** The recording cannot be downloaded. *)
Definition audio_gone : World :=
  world (except "https://example.com/audio.ogg" 503 "Unavailable") summary picture.

(** The image service answers without a payload. *)
Definition no_picture : World := world network summary (inr None).

(** The chat completion answers without content. *)
Definition no_content : World := world network (inr None) picture.



(** A gateway answers in place of the identity provider. *)
Definition token_gateway : World :=
  world (except token_endpoint 502 "<html>Bad Gateway</html>") summary picture.

(** The identity provider answers 200 with an object without token. *)
Definition token_missing : World :=
  world (except token_endpoint 200 "{}") summary picture.



(** The platform accepts the post and answers with the literal null. *)
Definition post_null : World :=
  world (except (posts_endpoint "4242") 200 "null") summary picture.

Definition voice_body : InputBody.t :=
  {| InputBody.type := Some "voice";
     InputBody.text := None;
     InputBody.voiceUrl := Some "https://example.com/audio.ogg";
     InputBody.link := None;
     InputBody.postToBlogger := None |}.

Definition selic : jsval := Some (JStr "Selic em alta").

(** The form as the page opens, and filled with a text. *)
Definition pristine : Index.Home :=
  {| Index.inputType := Index.Text; Index.text := ""; Index.voiceUrl := "";
     Index.link := ""; Index.posting := false; Index.result := JNull;
     Index.error := JNull |}.

Definition filled : Index.Home :=
  {| Index.inputType := Index.Text; Index.text := copom; Index.voiceUrl := "";
     Index.link := ""; Index.posting := false; Index.result := JNull;
     Index.error := JNull |}.

(** A browser whose every request gets the same answer. *)
Definition browser (answer : Exn + FetchResponse) : Index.Browser :=
  {| Index.fetch := fun _ => answer;
     Index.JSON_parse := Reference.JSON_parse;
     Index.Number_isZero := Number_isZero |}.

Definition server_said (status : nat) (content : string) : Index.Browser :=
  browser (inr {| status := status; content := content |}).

Definition text_missing_json : string :=
  "{" ++ q "error" ++ ":" ++ q "Texto ausente" ++ "}".

End Failures.

(** ** Properties of [trim] *)
Module JSFacts.
Import JS.

Lemma drop_bytes_length n s : String.length (drop_bytes n s) <= String.length s.
Proof.
  revert s. induction n as [| n IH]; intros s; [reflexivity |].
  destruct s as [| c r]; [reflexivity |]. cbn. specialize (IH r). lia.
Qed.

(** With enough fuel, what [trimStart] leaves does not start with white
    space. *)
Lemma trimStart_fuel_done fuel s :
  String.length s <= fuel -> space_width (trimStart_fuel fuel s) = 0.
Proof.
  revert s. induction fuel as [| fuel IH]; intros s Hlen.
  - destruct s; [reflexivity | cbn in Hlen; lia].
  - cbn [trimStart_fuel]. destruct (space_width s) as [| w] eqn:Hw;
      [assumption |].
    apply IH. destruct s as [| c r]; [discriminate |].
    cbn [drop_bytes]. pose proof (drop_bytes_length w r). cbn in Hlen. lia.
Qed.

Lemma trimStart_done s : space_width (trimStart s) = 0.
Proof. now apply trimStart_fuel_done. Qed.

Lemma trimStart_fixed s : space_width s = 0 -> trimStart s = s.
Proof.
  intros H. unfold trimStart. destruct (String.length s); [reflexivity |].
  cbn [trimStart_fuel]. now rewrite H.
Qed.

(** [trim] leaves nothing exactly of the strings of white space. *)
Lemma trim_length_blank s :
  Nat.ltb 0 (String.length (trim s)) = negb (blank s).
Proof.
  unfold trim, blank. pose proof (trimStart_done s) as Hdone.
  destruct (trimStart s) as [| c r] eqn:Ht; [reflexivity |].
  cbn [trimEnd]. unfold blank. rewrite (trimStart_fixed _ Hdone).
  reflexivity.
Qed.

End JSFacts.

(** ** Properties of the route *)
Module ProcessFacts.
Import JS Process Observation.

(** *** Runs of a sequence *)
Section Bind.
Context {A B : Type} (c : M A) (f : A -> M B) (s : State).

Lemma bind_normal a s' : c s = (Normal a, s') -> (c ≫= f) s = f a s'.
Proof. intros H. unfold mbind, M_bind. now rewrite H. Qed.

Lemma bind_throw e s' : c s = (Throw e, s') -> (c ≫= f) s = (Throw e, s').
Proof. intros H. unfold mbind, M_bind. now rewrite H. Qed.

Lemma bind_return s' : c s = (Return, s') -> (c ≫= f) s = (Return, s').
Proof. intros H. unfold mbind, M_bind. now rewrite H. Qed.

End Bind.

(** *** Code that only talks to the outside *)
Section IoRules.
Context {A B : Type} (P : Event -> Prop).

Lemma io_ret (a : A) : io P (mret a).
Proof.
  intros s. repeat split; [discriminate |].
  exists []. now rewrite app_nil_r.
Qed.

Lemma io_throw (e : Exn) : io P (@throw A e).
Proof.
  intros s. repeat split; [discriminate |].
  exists []. now rewrite app_nil_r.
Qed.

Lemma io_lift (r : Exn + A) : io P (lift r).
Proof. destruct r; [apply io_throw | apply io_ret]. Qed.

Lemma io_call (ev : Event) (answer : Exn + A) : P ev -> io P (call ev answer).
Proof.
  intros Hev s. unfold call.
  destruct answer; cbn; (repeat split; [discriminate |]);
    exists [ev]; split; auto.
Qed.

Lemma io_bind (c : M A) (f : A -> M B) :
  io P c -> (forall a, io P (f a)) -> io P (c ≫= f).
Proof.
  intros Hc Hf s. destruct (Hc s) as (Hr & Hres & new & Hcalls & Hnew).
  unfold mbind, M_bind. destruct (c s) as [[a | e |] s'] eqn:E; cbn in *.
  - destruct (Hf a s') as (Hr' & Hres' & new' & Hcalls' & Hnew').
    split; [assumption |]. split; [congruence |].
    exists (new ++ new')%list. rewrite Hcalls', Hcalls, app_assoc.
    split; [reflexivity | now apply Forall_app].
  - split; [discriminate |]. split; [assumption |]. now exists new.
  - contradiction.
Qed.

Lemma io_weaken (Q : Event -> Prop) (c : M A) :
  (forall e, P e -> Q e) -> io P c -> io Q c.
Proof.
  intros HPQ Hc s. destruct (Hc s) as (Hr & Hres & new & Hcalls & Hnew).
  repeat split; try assumption. exists new. split; [assumption |].
  eapply Forall_impl; eauto.
Qed.

End IoRules.

(** One step of a proof that a function is [io]. *)
Ltac io_step :=
  first
    [ apply io_ret | apply io_throw | apply io_lift
    | apply io_bind; [| intros ?]
    | match goal with
      | |- io _ (if ?b then _ else _) => destruct b
      | |- io _ (match ?x with _ => _ end) => destruct x
      end ].

(** *** Every function of the route below the handler is [io] *)
Section Stages.
Variable W : World.

Lemma io_fetchTextFromLink u : io normalizer_event (fetchTextFromLink W u).
Proof.
  unfold fetchTextFromLink, do_fetch.
  apply io_bind; [apply io_call; constructor | intros r].
  repeat io_step.
Qed.

Lemma io_transcribeFromUrl u : io normalizer_event (transcribeFromUrl W u).
Proof.
  unfold transcribeFromUrl, do_fetch.
  apply io_bind; [apply io_call; constructor | intros r].
  destruct (negb (ok r)); [apply io_throw |].
  apply io_bind; [apply io_call; constructor | intros t; apply io_ret].
Qed.

Lemma io_summarizeFinancePortuguese text :
  io summarizer_event (summarizeFinancePortuguese W text).
Proof.
  unfold summarizeFinancePortuguese.
  apply io_bind; [apply io_call; constructor | intros c].
  repeat io_step.
Qed.

Lemma io_generateImageBase64 subject :
  io illustrator_event (generateImageBase64 W subject).
Proof.
  unfold generateImageBase64.
  apply io_bind; [apply io_lift | intros t].
  apply io_bind; [apply io_call; constructor | intros b64].
  repeat io_step.
Qed.

Lemma io_render P img s : io P (render W img s).
Proof. unfold render. repeat io_step. Qed.

Lemma io_ensureGoogleAccessToken : io token_event (ensureGoogleAccessToken W).
Proof.
  unfold ensureGoogleAccessToken, do_fetch, response_json.
  destruct (_ || _); [apply io_throw |].
  apply io_bind; [apply io_call; constructor | intros r].
  repeat io_step.
Qed.

Lemma io_postToBlogger t html :
  io (fun e => token_event e \/ post_event e) (postToBlogger W t html).
Proof.
  unfold postToBlogger, do_fetch, response_json.
  destruct (negb _); [apply io_throw |].
  apply io_bind;
    [eapply io_weaken; [| apply io_ensureGoogleAccessToken]; auto | intros tok].
  apply io_bind; [apply io_lift | intros bearer].
  apply io_bind; [apply io_call; right; constructor | intros r].
  repeat io_step.
Qed.

End Stages.

(** *** Replies *)

Lemma reply_run {A : Type} code b s : @reply A code b s = (Return, replied code b s).
Proof. reflexivity. Qed.

Lemma on_error_run e s : on_error e s = (Return, failed e s).
Proof. reflexivity. Qed.

(** *** Code that may answer early *)
Section StageRules.
Context {A B : Type} (P : Event -> Prop).

Lemma stage_io (c : M A) : io P c -> stage P c.
Proof.
  intros Hc s. destruct (Hc s) as (Hr & Hres & Hcalls).
  split; [assumption |]. destruct (c s).1; [assumption .. | contradiction].
Qed.

Lemma stage_reply (m : string) : stage P (@reply A 400 (ErrorBody m)).
Proof.
  intros s. rewrite reply_run. cbn. split.
  - exists []. now rewrite app_nil_r.
  - split; [reflexivity | now exists m].
Qed.

Lemma stage_bind (c : M A) (f : A -> M B) :
  stage P c -> (forall a, stage P (f a)) -> stage P (c ≫= f).
Proof.
  intros Hc Hf s. destruct (Hc s) as ((new & Hcalls & Hnew) & Hres).
  unfold mbind, M_bind. destruct (c s) as [[a | e |] s'] eqn:E; cbn in *.
  - destruct (Hf a s') as ((new' & Hcalls' & Hnew') & Hres'). split.
    + exists (new ++ new')%list. rewrite Hcalls', Hcalls, app_assoc.
      split; [reflexivity | now apply Forall_app].
    + destruct (f a s').1; [congruence .. | assumption].
  - split; [now exists new | assumption].
  - split; [now exists new | assumption].
Qed.

Lemma stage_weaken (Q : Event -> Prop) (c : M A) :
  (forall e, P e -> Q e) -> stage P c -> stage Q c.
Proof.
  intros HPQ Hc s. destruct (Hc s) as ((new & Hcalls & Hnew) & Hres).
  split; [| assumption]. exists new. split; [assumption |].
  eapply Forall_impl; eauto.
Qed.

End StageRules.

(** *** The handler in terms of its stages *)
Section Handler.
Variable W : World.

Lemma stage_sourceText b : stage normalizer_event (sourceText W b).
Proof.
  unfold sourceText.
  repeat match goal with
         | |- stage _ (if ?c then _ else _) => destruct c
         end;
    first [ apply stage_reply
          | apply stage_io;
            first [ apply io_ret | apply io_fetchTextFromLink
                  | apply io_transcribeFromUrl ] ].
Qed.

Lemma stage_artifacts b : stage artifact_event (artifacts W b).
Proof.
  unfold artifacts.
  apply stage_bind;
    [eapply stage_weaken; [| apply stage_sourceText]; unfold artifact_event; auto
    | intros text].
  apply stage_io.
  apply io_bind;
    [eapply io_weaken; [| apply io_summarizeFinancePortuguese];
     unfold artifact_event; auto
    | intros sm].
  apply io_bind;
    [eapply io_weaken; [| apply io_generateImageBase64];
     unfold artifact_event; auto
    | intros img].
  apply io_bind; [apply io_render | intros html; apply io_ret].
Qed.

Lemma io_publish b t html :
  io (fun e => token_event e \/ post_event e) (publish W b t html).
Proof.
  unfold publish. destruct (truthy_flag _); [| apply io_ret].
  apply io_bind; [apply io_postToBlogger | intros p; apply io_ret].
Qed.

(** The handler on a POST request with a body and a type: the artifacts,
    then publishing, then the 200; a [throw] on the way is answered by
    the [catch] block. *)
Lemma serve_post req b :
  method req = Some "POST" -> body req = Some b ->
  truthy_field (InputBody.type b) = true ->
  serve W req =
    match artifacts W b init with
    | (Normal (sm, img, html), s1) =>
        match publish W b (title sm) html s1 with
        | (Normal u, s2) => replied 200 (ResultBody (title sm) html img u) s2
        | (Throw e, s2) => failed e s2
        | (Return, s2) => s2
        end
    | (Throw e, s1) => failed e s1
    | (Return, s1) => s1
    end.
Proof.
  intros Hm Hb Ht. unfold serve, handler, try_catch, pipeline.
  rewrite Hm, Hb, Ht. cbn [negb]. unfold mbind, M_bind.
  rewrite bool_decide_eq_true_2 by reflexivity. cbn [negb].
  destruct (artifacts W b init) as [[[[sm img] html] | e |] s1]; try reflexivity.
  destruct (publish W b (title sm) html s1) as [[u | e |] s2]; reflexivity.
Qed.

End Handler.

(** *** Which call is which *)

Lemma artifact_event_no_publishing e :
  artifact_event e -> is_token_exchange e = false /\ is_create_post e = false.
Proof. intros [[] | [[] | []]]; split; reflexivity. Qed.


Lemma token_event_is_exchange e : token_event e -> is_token_exchange e = true.
Proof. now intros []. Qed.

Lemma token_event_no_post e : token_event e -> is_create_post e = false.
Proof. now intros []. Qed.

Lemma post_event_is_post e : post_event e -> is_create_post e = true.
Proof. intros [blogId bearer t html]. now destruct blogId. Qed.

(** *** Code that leaves no trace *)

Section SilentRules.
Context {A B : Type}.

Lemma silent_ret (a : A) : silent (mret a).
Proof. now intros s. Qed.

Lemma silent_throw (e : Exn) : silent (@throw A e).
Proof. now intros s. Qed.

Lemma silent_lift (r : Exn + A) : silent (lift r).
Proof. destruct r; [apply silent_throw | apply silent_ret]. Qed.

Lemma silent_bind (c : M A) (f : A -> M B) :
  silent c -> (forall a, silent (f a)) -> silent (c ≫= f).
Proof.
  intros Hc Hf s. destruct (Hc s) as [Hs Hr].
  unfold mbind, M_bind. destruct (c s) as [[a | e |] s']; cbn in *; subst.
  - apply Hf.
  - now split.
  - contradiction.
Qed.

(** After a call the log has one more line, whatever a silent
    continuation does with the answer. *)
Lemma call_then (ev : Event) (answer : Exn + A) (f : A -> M B) s :
  (forall a, silent (f a)) ->
  ((call ev answer ≫= f) s).2 = {| res := res s; calls := calls s ++ [ev] |} /\
  ((call ev answer ≫= f) s).1 <> Return.
Proof.
  intros Hf. unfold mbind, M_bind, call.
  destruct answer as [e | a]; cbn; [now split |]. apply Hf.
Qed.

End SilentRules.

Ltac silent_step :=
  first
    [ apply silent_ret | apply silent_throw | apply silent_lift
    | apply silent_bind; [| intros ?]
    | match goal with
      | |- silent (if ?b then _ else _) => destruct b
      | |- silent (match ?x with _ => _ end) => destruct x
      end ].

Section Steps.
Variable W : World.

(** The summariser makes exactly one call, whatever comes of it. *)
Lemma summarize_state text s :
  (summarizeFinancePortuguese W text s).2 =
    logged (ChatCompletion (chat_params text)) s /\
  (summarizeFinancePortuguese W text s).1 <> Return.
Proof.
  unfold summarizeFinancePortuguese. apply call_then.
  intros c. repeat silent_step.
Qed.

Lemma render_silent img sm : silent (render W img sm).
Proof. unfold render. repeat silent_step. Qed.

(** The artifacts once the source text is known. *)
Lemma artifacts_run b s text s1 :
  sourceText W b s = (Normal text, s1) ->
  artifacts W b s =
    match summarizeFinancePortuguese W text s1 with
    | (Normal sm, s2) =>
        match generateImageBase64 W (title sm) s2 with
        | (Normal img, s3) =>
            match render W img sm s3 with
            | (Normal html, s4) => (Normal (sm, img, html), s4)
            | (Throw e, s4) => (Throw e, s4)
            | (Return, s4) => (Return, s4)
            end
        | (Throw e, s3) => (Throw e, s3)
        | (Return, s3) => (Return, s3)
        end
    | (Throw e, s2) => (Throw e, s2)
    | (Return, s2) => (Return, s2)
    end.
Proof.
  intros H. unfold artifacts. rewrite (bind_normal _ _ _ _ _ H).
  unfold mbind, M_bind.
  destruct (summarizeFinancePortuguese W text s1) as [[sm | e |] s2];
    reflexivity.
Qed.

(** The three ways the handler answers. *)
Lemma serve_cases req :
  (method req <> Some "POST" /\
   serve W req =
     {| res := {| statusCode := 405; headers := [("Allow", ["POST"])];
                  sent := Some (ErrorBody "Method not allowed") |};
        calls := [] |}) \/
  (method req = Some "POST" /\
   (body req = None \/
    exists b, body req = Some b /\ truthy_field (InputBody.type b) = false) /\
   serve W req = replied 400 (ErrorBody "Par?metros inv?lidos") init) \/
  (exists b, method req = Some "POST" /\ body req = Some b /\
             truthy_field (InputBody.type b) = true).
Proof.
  destruct (decide (method req = Some "POST")) as [Hm | Hm].
  - right. destruct (body req) as [b |] eqn:Hb.
    + destruct (truthy_field (InputBody.type b)) eqn:Ht.
      * right. now exists b.
      * left. split; [assumption |]. split; [right; now exists b |].
        unfold serve, handler, try_catch, pipeline.
        rewrite Hm, Hb, Ht. rewrite bool_decide_eq_true_2 by reflexivity.
        reflexivity.
    + left. split; [assumption |]. split; [now left |].
      unfold serve, handler, try_catch, pipeline.
      rewrite Hm, Hb. rewrite bool_decide_eq_true_2 by reflexivity.
      reflexivity.
  - left. split; [assumption |].
    unfold serve, handler. rewrite bool_decide_eq_false_2 by assumption.
    reflexivity.
Qed.

End Steps.

(** *** The stages one by one *)
Section StageRuns.
Variable W : World.


Lemma summarize_parsed text s completion v t h :
  chat_completions_create W (chat_params text) = inr completion ->
  JSON_parse W (content_or_empty completion) = inr v ->
  Get v "title" = inr t -> Get v "html" = inr h ->
  summarizeFinancePortuguese W text s =
    (Normal {| title := t; summaryHtml := h |},
     logged (ChatCompletion (chat_params text)) s).
Proof.
  intros Hchat Hparse Ht Hh.
  unfold summarizeFinancePortuguese, call, mbind, M_bind.
  rewrite Hchat. cbn. rewrite Hparse. cbn. rewrite Ht. cbn. now rewrite Hh.
Qed.

(** Once the subject prints, the illustrator makes exactly one call. *)
Lemma generate_state subject text s :
  ToString W subject = inr text ->
  (generateImageBase64 W subject s).2 =
    logged (ImageGeneration (image_params text)) s /\
  (generateImageBase64 W subject s).1 <> Return.
Proof.
  intros Hs. unfold generateImageBase64.
  rewrite (bind_normal _ _ s text s) by now rewrite Hs.
  apply call_then. intros b64. repeat silent_step.
Qed.

Lemma render_inv img sm s html s' :
  render W img sm s = (Normal html, s') ->
  exists ts hs,
    ToString W (title sm) = inr ts /\ ToString W (summaryHtml sm) = inr hs /\
    html = html_template img ts hs.
Proof.
  unfold render, mbind, M_bind.
  destruct (ToString W (title sm)) as [e | ts]; cbn; [discriminate |].
  destruct (ToString W (summaryHtml sm)) as [e | hs]; cbn; [discriminate |].
  intros [= <- <-]. now exists ts, hs.
Qed.

Lemma artifacts_inv b s sm img html s' :
  artifacts W b s = (Normal (sm, img, html), s') ->
  exists text s1 s2 s3,
    sourceText W b s = (Normal text, s1) /\
    summarizeFinancePortuguese W text s1 = (Normal sm, s2) /\
    generateImageBase64 W (title sm) s2 = (Normal img, s3) /\
    render W img sm s3 = (Normal html, s').
Proof.
  unfold artifacts, mbind, M_bind.
  destruct (sourceText W b s) as [[text | e |] s1]; [| discriminate ..].
  destruct (summarizeFinancePortuguese W text s1) as [[sm' | e |] s2] eqn:Hs;
    [| discriminate ..].
  destruct (generateImageBase64 W (title sm') s2) as [[img' | e |] s3] eqn:Hg;
    [| discriminate ..].
  destruct (render W img' sm' s3) as [[html' | e |] s4] eqn:Hr;
    [| discriminate ..].
  intros [= <- <- <- <-]. now exists text, s1, s2, s3.
Qed.

Lemma ensure_unconfigured s :
  credentials_set W = false ->
  ensureGoogleAccessToken W s = (Throw (Error credentials_missing), s).
Proof.
  unfold credentials_set, ensureGoogleAccessToken. intros H.
  destruct (truthy_field (env W !! "GOOGLE_CLIENT_ID"));
    destruct (truthy_field (env W !! "GOOGLE_CLIENT_SECRET"));
    destruct (truthy_field (env W !! "GOOGLE_REFRESH_TOKEN"));
    first [discriminate | reflexivity].
Qed.

(** With the credentials set the token endpoint is called exactly once. *)
Lemma ensure_configured s :
  credentials_set W = true ->
  exists a b c,
    (ensureGoogleAccessToken W s).2 = logged (Fetch (token_request a b c)) s /\
    (ensureGoogleAccessToken W s).1 <> Return.
Proof.
  unfold credentials_set, ensureGoogleAccessToken. intros H.
  destruct (truthy_field (env W !! "GOOGLE_CLIENT_ID")); [| discriminate].
  destruct (truthy_field (env W !! "GOOGLE_CLIENT_SECRET")); [| discriminate].
  destruct (truthy_field (env W !! "GOOGLE_REFRESH_TOKEN")); [| discriminate].
  cbn [negb orb]. do 3 eexists. unfold do_fetch, response_json.
  apply call_then. intros r. repeat silent_step.
Qed.

Lemma postToBlogger_no_blog t html s :
  blog_id_set W = false ->
  postToBlogger W t html s = (Throw (Error blog_id_missing), s).
Proof. unfold blog_id_set, postToBlogger. now intros ->. Qed.

Lemma postToBlogger_unconfigured t html s :
  credentials_set W = false ->
  postToBlogger W t html s = (Throw (Error (configuration_error W)), s).
Proof.
  intros H. unfold configuration_error.
  destruct (blog_id_set W) eqn:Hb; [| now apply postToBlogger_no_blog].
  unfold postToBlogger. unfold blog_id_set in Hb. rewrite Hb. cbn [negb].
  now rewrite (bind_throw _ _ _ _ _ (ensure_unconfigured s H)).
Qed.

(** What the publisher adds to the log: nothing, the token exchange, or
    the token exchange followed by the creation of the post; in the
    first two cases it ends with a [throw]. *)
Lemma postToBlogger_shape t html s r s' :
  postToBlogger W t html s = (r, s') ->
  r <> Return /\ res s' = res s /\
  ((calls s' = calls s /\ exists e, r = Throw e) \/
   (exists tok,
      token_event tok /\ calls s' = (calls s ++ [tok])%list /\
      exists e, r = Throw e) \/
   (exists tok pst,
      token_event tok /\ post_event pst /\
      calls s' = (calls s ++ [tok; pst])%list)).
Proof.
  intros H.
  destruct (blog_id_set W) eqn:Hb.
  2: { rewrite (postToBlogger_no_blog t html s Hb) in H.
       injection H as <- <-. repeat split; [discriminate |]. left. eauto. }
  destruct (credentials_set W) eqn:Hc.
  2: { rewrite (postToBlogger_unconfigured t html s Hc) in H.
       injection H as <- <-. repeat split; [discriminate |]. left. eauto. }
  unfold postToBlogger in H. unfold blog_id_set in Hb.
  rewrite Hb in H. cbn [negb] in H.
  destruct (ensure_configured s Hc) as (a & b & c & Hs & Hr).
  unfold mbind at 1, M_bind at 1 in H.
  destruct (ensureGoogleAccessToken W s) as [[tok | e |] s1];
    cbn in Hs, Hr; subst s1; [| | contradiction].
  2: { injection H as <- <-. repeat split; [discriminate |]. right. left.
       eexists. split; [constructor |]. split; eauto. }
  unfold mbind at 1, M_bind at 1 in H.
  destruct (ToString W tok) as [e | bearer]; cbn [lift throw mret M_ret] in H.
  { injection H as <- <-. repeat split; [discriminate |]. right. left.
    eexists. split; [constructor |]. split; eauto. }
  unfold do_fetch, response_json in H.
  match type of H with
  | (call ?ev ?ans ≫= ?f) ?s0 = _ =>
      destruct (call_then ev ans f s0) as [Hs2 Hr2];
        [intros x; repeat silent_step |]
  end.
  rewrite H in Hs2, Hr2. cbn in Hs2, Hr2. subst s'.
  split; [assumption |]. split; [reflexivity |].
  right. right. do 2 eexists. split; [constructor |].
  split; [constructor |]. cbn. now rewrite <- app_assoc.
Qed.

Lemma publish_unrequested b t html s :
  truthy_flag (InputBody.postToBlogger b) = false ->
  publish W b t html s = (Normal undefined, s).
Proof. unfold publish. now intros ->. Qed.

Lemma publish_unconfigured b t html s :
  truthy_flag (InputBody.postToBlogger b) = true ->
  credentials_set W = false ->
  publish W b t html s = (Throw (Error (configuration_error W)), s).
Proof.
  intros Hf Hc. unfold publish. rewrite Hf.
  now rewrite (bind_throw _ _ _ _ _ (postToBlogger_unconfigured t html s Hc)).
Qed.

Lemma publish_inv b t html s u s' :
  publish W b t html s = (Normal (Some u), s') ->
  truthy_flag (InputBody.postToBlogger b) = true /\
  exists p, postToBlogger W t html s = (Normal p, s') /\ post_url p = Some u.
Proof.
  unfold publish. destruct (truthy_flag _); [| discriminate].
  unfold mbind, M_bind.
  destruct (postToBlogger W t html s) as [[p | e |] s1]; [| discriminate ..].
  intros [= Hu <-]. split; [reflexivity |]. now exists p.
Qed.

(** Every answer of the handler: the 200 with the artifacts and the
    result of publishing, or an error body under another status. *)
Lemma serve_result req :
  (exists b sm img html s1 u s2,
     method req = Some "POST" /\ body req = Some b /\
     truthy_field (InputBody.type b) = true /\
     artifacts W b init = (Normal (sm, img, html), s1) /\
     publish W b (title sm) html s1 = (Normal u, s2) /\
     serve W req = replied 200 (ResultBody (title sm) html img u) s2) \/
  (statusCode (res (serve W req)) <> 200 /\
   exists m, sent (res (serve W req)) = Some (ErrorBody m)).
Proof.
  destruct (serve_cases W req)
    as [[_ ->] | [(_ & _ & ->) | (b & Hm & Hb & Ht)]];
    [right; cbn; split; [discriminate | eauto] ..|].
  rewrite (serve_post W req b Hm Hb Ht).
  destruct (stage_artifacts W b init) as [_ Ha].
  destruct (artifacts W b init) as [[[[sm img] html] | e |] s1] eqn:Ea;
    cbn in Ha.
  - destruct (io_publish W b (title sm) html s1) as (Hr & _).
    destruct (publish W b (title sm) html s1) as [[u | e |] s2] eqn:Ep;
      cbn in Hr; [| | contradiction].
    + left. exists b, sm, img, html, s1, u, s2. repeat split; assumption.
    + right. cbn. split; [discriminate | eauto].
  - right. cbn. split; [discriminate | eauto].
  - right. destruct Ha as [H400 Hm']. split; [| assumption].
    rewrite H400. discriminate.
Qed.

(** The handler always ends by its [return], with a body sent. *)
Lemma handler_always_replies req :
  (handler W req init).1 = Return /\
  exists body, sent (res (serve W req)) = Some body.
Proof.
  split.
  - unfold handler, try_catch, pipeline.
    destruct (negb _); [reflexivity |].
    destruct (body req) as [b |]; [| reflexivity].
    destruct (negb _); [reflexivity |].
    unfold mbind, M_bind.
    destruct (artifacts W b init) as [[[[sm img] html] | e |] s1];
      try reflexivity.
    destruct (publish W b (title sm) html s1) as [[u | e |] s2]; reflexivity.
  - destruct (serve_result req)
      as [(b & sm & img & html & s1 & u & s2 & _ & _ & _ & _ & _ & ->)
         | [_ [m Hm]]]; cbn; eauto.
Qed.

End StageRuns.

(** *** Validation *)

Lemma early_reply W req b m :
  method req = Some "POST" -> body req = Some b ->
  truthy_field (InputBody.type b) = true ->
  sourceText W b init = reply 400 (ErrorBody m) init ->
  rejected W req m.
Proof.
  intros Hm Hb Ht Hsrc. unfold rejected.
  rewrite (serve_post W req b Hm Hb Ht). unfold artifacts.
  rewrite (bind_return _ _ _ _ Hsrc). now cbn.
Qed.

(** C9. A request whose method is not POST is answered with status 405
    and an error body, the response header Allow is set to POST, and no
    step of the pipeline runs: the log of outbound calls is empty. *)
Theorem method_not_allowed (W : World) (req : NextApiRequest) :
  method req <> Some "POST" ->
  statusCode (res (serve W req)) = 405 /\
  sent (res (serve W req)) = Some (ErrorBody "Method not allowed") /\
  headers (res (serve W req)) = [("Allow", ["POST"])] /\
  calls (serve W req) = [].
Proof.
  intros Hm.
  destruct (serve_cases W req) as [[_ ->] | [[Hm' _] | (b & Hm' & _)]];
    [now cbn | contradiction ..].
Qed.

(** C5. A POST request whose variant lacks its payload field ([text]
    under type text, [link] under type link, [voiceUrl] under type voice)
    is answered 400 with the validation message of that variant, and no
    step of the pipeline runs. *)
Theorem missing_payload_is_rejected (W : World) (req : NextApiRequest)
  (b : InputBody.t) :
  method req = Some "POST" -> body req = Some b ->
  (InputBody.type b = Some "text" -> InputBody.text b = None ->
   rejected W req "Texto ausente") /\
  (InputBody.type b = Some "link" -> InputBody.link b = None ->
   rejected W req "Link ausente") /\
  (InputBody.type b = Some "voice" -> InputBody.voiceUrl b = None ->
   rejected W req "voiceUrl ausente").
Proof.
  intros Hm Hb. split; [| split]; intros Ht Hp;
    (apply (early_reply W req b _ Hm Hb); [now rewrite Ht |]);
    unfold sourceText; rewrite Ht, Hp; reflexivity.
Qed.

(** C7. A POST request whose type is a non-empty string other than text,
    link and voice is not answered 400: the source text is the empty
    string, and the first outbound call is the chat completion on the
    prompt built from the empty string. *)
Theorem unknown_type_is_summarized (W : World) (req : NextApiRequest)
  (b : InputBody.t) (t : string) :
  method req = Some "POST" -> body req = Some b ->
  InputBody.type b = Some t ->
  t <> "" -> t <> "text" -> t <> "link" -> t <> "voice" ->
  sourceText W b init = (Normal "", init) /\
  statusCode (res (serve W req)) <> 400 /\
  exists rest,
    calls (serve W req) = ChatCompletion (chat_params "") :: rest.
Proof.
  intros Hm Hb Ht Hne Htext Hlink Hvoice.
  assert (Htruthy : truthy_field (InputBody.type b) = true).
  { rewrite Ht. cbn. unfold truthy_string.
    destruct (String.eqb_spec t ""); [contradiction | reflexivity]. }
  assert (Hsrc : sourceText W b init = (Normal "", init)).
  { unfold sourceText. rewrite Ht.
    rewrite !bool_decide_eq_false_2 by congruence. reflexivity. }
  split; [assumption |].
  rewrite (serve_post W req b Hm Hb Htruthy), (artifacts_run W b _ _ _ Hsrc).
  destruct (summarize_state W "" init) as [Hs2 Hr2].
  destruct (summarizeFinancePortuguese W "" init) as [[sm | e |] s2];
    cbn in Hs2, Hr2; subst s2; [| cbn; split; [discriminate | eauto] | contradiction].
  destruct (io_generateImageBase64 W (title sm)
              (logged (ChatCompletion (chat_params "")) init))
    as (Hr3 & Hres3 & new3 & Hc3 & _).
  destruct (generateImageBase64 W (title sm) _) as [[img | e |] s3];
    cbn in Hr3, Hres3, Hc3;
    [| cbn; split; [discriminate | rewrite Hc3; cbn; eauto] | contradiction].
  destruct (render_silent W img sm s3) as [Hs4 Hr4].
  destruct (render W img sm s3) as [[html | e |] s4];
    cbn in Hs4, Hr4; subst s4;
    [| cbn; split; [discriminate | rewrite Hc3; cbn; eauto] | contradiction].
  destruct (io_publish W b (title sm) html s3)
    as (Hr5 & Hres5 & new5 & Hc5 & _).
  destruct (publish W b (title sm) html s3) as [[u | e |] s5];
    cbn in Hr5, Hres5, Hc5; [| | contradiction];
    cbn; (split; [discriminate |]); rewrite Hc5, Hc3; cbn; eauto.
Qed.

(** *** How the log grows *)
Section Log.
Variable W : World.

Lemma serve_extends_artifacts req b :
  method req = Some "POST" -> body req = Some b ->
  truthy_field (InputBody.type b) = true ->
  exists more,
    calls (serve W req) = (calls (artifacts W b init).2 ++ more)%list.
Proof.
  intros Hm Hb Ht. rewrite (serve_post W req b Hm Hb Ht).
  destruct (artifacts W b init) as [[[[sm img] html] | e |] s1]; cbn.
  - destruct (io_publish W b (title sm) html s1) as (_ & _ & new & Hc & _).
    destruct (publish W b (title sm) html s1) as [[u | e |] s2];
      cbn in Hc |- *; rewrite Hc.
    + now exists new.
    + exists (new ++ [ConsoleError e])%list. now rewrite app_assoc.
    + now exists new.
  - now exists [ConsoleError e].
  - exists []. now rewrite app_nil_r.
Qed.

Lemma artifacts_extends_image b s text s1 sm s2 :
  sourceText W b s = (Normal text, s1) ->
  summarizeFinancePortuguese W text s1 = (Normal sm, s2) ->
  calls (artifacts W b s).2 = calls (generateImageBase64 W (title sm) s2).2.
Proof.
  intros Hsrc Hsum. rewrite (artifacts_run W b s text s1 Hsrc), Hsum.
  destruct (generateImageBase64 W (title sm) s2) as [[img | e |] s3];
    try reflexivity.
  destruct (render_silent W img sm s3) as [Hs4 _].
  destruct (render W img sm s3) as [[html | e |] s4]; cbn in Hs4; now subst.
Qed.

(** When publishing adds nothing to the log, the log holds the events of
    the artifacts and at most the line of the [catch] block. *)
Lemma serve_calls_without_publishing req :
  (forall b t html s, body req = Some b ->
                      calls (publish W b t html s).2 = calls s) ->
  Forall (fun e => artifact_event e \/ exists x, e = ConsoleError x)
    (calls (serve W req)).
Proof.
  intros Hquiet.
  destruct (serve_cases W req)
    as [[_ ->] | [(_ & _ & ->) | (b & Hm & Hb & Ht)]];
    [constructor .. |].
  rewrite (serve_post W req b Hm Hb Ht).
  destruct (stage_artifacts W b init) as [(new & Hc & Hnew) _].
  assert (Hleft : Forall (fun e => artifact_event e \/ exists x, e = ConsoleError x) new)
    by (eapply Forall_impl; eauto).
  specialize (Hquiet b).
  destruct (artifacts W b init) as [[[[sm img] html] | e |] s1];
    cbn in Hc |- *.
  - specialize (Hquiet (title sm) html s1 Hb).
    destruct (publish W b (title sm) html s1) as [[u | e |] s2];
      cbn in Hquiet |- *; rewrite Hquiet, Hc; cbn; [assumption | | assumption].
    apply Forall_app. split; [assumption |].
    constructor; [right; eauto | constructor].
  - rewrite Hc. cbn. apply Forall_app. split; [assumption |].
    constructor; [right; eauto | constructor].
  - now rewrite Hc.
Qed.

End Log.

Lemma length_append (s1 s2 : string) :
  String.length (s1 ++ s2) = String.length s1 + String.length s2.
Proof. induction s1 as [| c s1 IH]; simpl; [reflexivity | now f_equal]. Qed.

(** *** The summarizer and the illustrator *)



(** *** The publisher *)

(** C2, as the code has it. The publisher checks the blog identifier
    before anything else: when it is missing it throws the configuration
    error without any outbound call, so no token exchange takes place.
    Otherwise the token exchange is the first call and the creation of
    the post the second: the log grows by nothing, by the token exchange
    alone, or by the token exchange followed by the creation of the post,
    and the publisher succeeds only in the last case. *)
Theorem token_exchange_precedes_post (W : World) (t : jsval) (html : string)
  (s : State) :
  (blog_id_set W = false ->
   postToBlogger W t html s = (Throw (Error blog_id_missing), s)) /\
  (forall p s',
     postToBlogger W t html s = (Normal p, s') ->
     exists tok pst,
       token_event tok /\ post_event pst /\
       calls s' = (calls s ++ [tok; pst])%list) /\
  (calls (postToBlogger W t html s).2 = calls s \/
   (exists tok,
      token_event tok /\
      calls (postToBlogger W t html s).2 = (calls s ++ [tok])%list) \/
   (exists tok pst,
      token_event tok /\ post_event pst /\
      calls (postToBlogger W t html s).2 = (calls s ++ [tok; pst])%list)).
Proof.
  split; [apply postToBlogger_no_blog |]. split.
  - intros p s' H.
    destruct (postToBlogger_shape W t html s _ _ H)
      as (_ & _ & [(_ & e & He) | [(tok & _ & _ & e & He) | Hboth]]);
      [discriminate .. | exact Hboth].
  - destruct (postToBlogger W t html s) as [r s'] eqn:H.
    destruct (postToBlogger_shape W t html s _ _ H)
      as (_ & _ & [(Hc & _) | [(tok & Htok & Hc & _) | Hboth]]); cbn.
    + now left.
    + right. left. now exists tok.
    + right. right. exact Hboth.
Qed.

(** C3. When publishing is requested and one of the three OAuth
    credentials is missing from the configuration, the creation of the
    post is never attempted and the answer is never a 200; once the
    request has come through validation and the three artifacts exist,
    the answer is a 500 whose message is the configuration error of the
    publisher, and nothing but the log line follows the artifacts. *)
Theorem missing_credentials_stop_publishing (W : World)
  (req : NextApiRequest) (b : InputBody.t) :
  body req = Some b ->
  truthy_flag (InputBody.postToBlogger b) = true ->
  truthy_field (env W !! "GOOGLE_CLIENT_ID") = false \/
  truthy_field (env W !! "GOOGLE_CLIENT_SECRET") = false \/
  truthy_field (env W !! "GOOGLE_REFRESH_TOKEN") = false ->
  Forall (fun e => is_create_post e = false) (calls (serve W req)) /\
  statusCode (res (serve W req)) <> 200 /\
  (forall sm img html s1,
     method req = Some "POST" ->
     truthy_field (InputBody.type b) = true ->
     artifacts W b init = (Normal (sm, img, html), s1) ->
     statusCode (res (serve W req)) = 500 /\
     sent (res (serve W req)) = Some (ErrorBody (configuration_error W)) /\
     calls (serve W req) =
       (calls s1 ++ [ConsoleError (Error (configuration_error W))])%list).
Proof.
  intros Hb Hflag Hmissing.
  assert (Hcred : credentials_set W = false).
  { unfold credentials_set.
    destruct Hmissing as [-> | [-> | ->]];
      [reflexivity | apply andb_false_intro1, andb_false_r | apply andb_false_r]. }
  assert (Hpub : forall t html s,
             publish W b t html s = (Throw (Error (configuration_error W)), s))
    by (intros; now apply publish_unconfigured).
  split; [| split].
  - eapply Forall_impl.
    + apply serve_calls_without_publishing. intros b' t html s Hb'.
      assert (b' = b) as -> by congruence. now rewrite Hpub.
    + intros e [Ha | [x ->]]; [| reflexivity].
      now apply artifact_event_no_publishing.
  - destruct (serve_result W req)
      as [(b' & sm & img & html & s1 & u & s2 & _ & Hb' & _ & _ & Hp & _) | [H _]];
      [| assumption].
    assert (b' = b) as -> by congruence. rewrite Hpub in Hp. discriminate.
  - intros sm img html s1 Hm Ht Ha.
    rewrite (serve_post W req b Hm Hb Ht), Ha, Hpub. cbn.
    repeat split. unfold configuration_error.
    now destruct (blog_id_set W).
Qed.

(** C4. When publishing is not requested (the flag is false or absent),
    neither the token exchange nor the creation of the post is called,
    and a 200 answer has no bloggerPostUrl. Whenever an answer has a
    bloggerPostUrl, publishing was requested and the publisher returned
    normally with that url. *)
Theorem publishing_only_on_request (W : World) (req : NextApiRequest) :
  ((forall b, body req = Some b ->
              truthy_flag (InputBody.postToBlogger b) = false) ->
   Forall (fun e => is_token_exchange e = false /\ is_create_post e = false)
     (calls (serve W req)) /\
   (statusCode (res (serve W req)) = 200 ->
    exists t html img,
      sent (res (serve W req)) = Some (ResultBody t html img undefined))) /\
  (forall t html img u,
     sent (res (serve W req)) = Some (ResultBody t html img (Some u)) ->
     exists b s1 s2 p,
       body req = Some b /\
       truthy_flag (InputBody.postToBlogger b) = true /\
       postToBlogger W t html s1 = (Normal p, s2) /\
       post_url p = Some u).
Proof.
  split.
  - intros Hflag. split.
    + eapply Forall_impl.
      * apply serve_calls_without_publishing. intros b t html s Hb.
        now rewrite (publish_unrequested W b t html s (Hflag b Hb)).
      * intros e [Ha | [x ->]]; [| now split].
        now apply artifact_event_no_publishing.
    + intros H200.
      destruct (serve_result W req)
        as [(b & sm & img & html & s1 & u & s2 & _ & Hb & _ & _ & Hp & ->)
           | [H _]];
        [| contradiction].
      rewrite (publish_unrequested W b _ _ _ (Hflag b Hb)) in Hp.
      injection Hp as <- <-. now exists (title sm), html, img.
  - intros t html img u Hsent.
    destruct (serve_result W req)
      as [(b & sm & img' & html' & s1 & u' & s2 & _ & Hb & _ & _ & Hp & Hs)
         | [_ [m Hm]]];
      [| congruence].
    rewrite Hs in Hsent. cbn in Hsent. injection Hsent as <- <- <- ->.
    destruct (publish_inv W b _ _ _ _ _ Hp) as (Hflag & p & Hpost & Hu).
    now exists b, s1, s2, p.
Qed.

(** *** The answer *)

Lemma append_assoc (s1 s2 s3 : string) : (s1 ++ s2) ++ s3 = s1 ++ s2 ++ s3.
Proof.
  induction s1 as [| c s1 IH]; [reflexivity |].
  change (String c ((s1 ++ s2) ++ s3) = String c (s1 ++ s2 ++ s3)).
  now rewrite IH.
Qed.

(** The template of process.ts:161-166 written out character by
    character, the double quote and the line feed by their codes. *)
Lemma html_template_spelled (img ts fragment : string) :
  html_template img ts fragment =
    String "010" "      <div style=" ++ String "034" "text-align:center;margin:0 0 16px 0" ++
    String "034" ">" ++
    String "010" "        <img src=" ++ String "034" img ++
    String "034" " alt=" ++ String "034" ts ++
    String "034" " style=" ++ String "034" "max-width:100%;height:auto" ++
    String "034" " />" ++
    String "010" "      </div>" ++
    String "010" "      " ++ fragment ++
    String "010" "    ".
Proof.
  unfold html_template, wrapper, nl, quot.
  repeat (rewrite !append_assoc; cbn [String.append]).
  reflexivity.
Qed.

(** C8. In every 200 answer the html field is, character by character
    (the double quote is the character 034 and the line feed the
    character 010): a line feed, the opening tag of a division, the
    image element whose src is the imageDataUrl of the same answer and
    whose alt is the text of the title of the same answer (the title
    itself when it is a string), the closing tag of the division, then
    the text of the html fragment of the summarizer (the fragment itself
    when it is a string), then the closing line of the template. The
    division comes before the fragment, and the field is never the
    fragment alone. *)
Theorem html_wraps_image (W : World) (req : NextApiRequest) :
  statusCode (res (serve W req)) = 200 ->
  exists sm img u ts fragment,
    sent (res (serve W req)) =
      Some (ResultBody (title sm)
              (String "010" "      <div style=" ++
               String "034" "text-align:center;margin:0 0 16px 0" ++
               String "034" ">" ++
               String "010" "        <img src=" ++ String "034" img ++
               String "034" " alt=" ++ String "034" ts ++
               String "034" " style=" ++ String "034" "max-width:100%;height:auto" ++
               String "034" " />" ++
               String "010" "      </div>" ++
               String "010" "      " ++ fragment ++
               String "010" "    ")
              img u) /\
    (exists text s s',
       summarizeFinancePortuguese W text s = (Normal sm, s')) /\
    ToString W (title sm) = inr ts /\
    ToString W (summaryHtml sm) = inr fragment /\
    (forall t, title sm = Some (JStr t) -> ts = t) /\
    (forall h, summaryHtml sm = Some (JStr h) -> fragment = h) /\
    (forall html,
       sent (res (serve W req)) = Some (ResultBody (title sm) html img u) ->
       html <> fragment).
Proof.
  intros H200.
  destruct (serve_result W req)
    as [(b & sm & img & html & s1 & u & s2 & _ & _ & _ & Ha & _ & Hs) | [H _]];
    [| contradiction].
  destruct (artifacts_inv W b _ _ _ _ _ Ha)
    as (text & s1' & s2' & s3' & _ & Hsum & _ & Hrender).
  destruct (render_inv W _ _ _ _ _ Hrender) as (ts & fragment & Hts & Hf & ->).
  exists sm, img, u, ts, fragment. rewrite Hs. cbn [sent res].
  split; [now rewrite html_template_spelled |]. split; [eauto |].
  split; [assumption |]. split; [assumption |].
  split; [intros t Ht; rewrite Ht in Hts; now injection Hts |].
  split; [intros h Hh; rewrite Hh in Hf; now injection Hf |].
  intros html Hhtml. injection Hhtml as <-.
  intros Heq. apply (f_equal String.length) in Heq.
  unfold html_template in Heq.
  rewrite !length_append in Heq. cbn in Heq. lia.
Qed.

(** *** The normalizer *)

(** C6. For the link variant, when the page was fetched with a success
    status and parsed: if the text Readability extracted is empty or
    white space only (or there is none), the normalizer returns the text
    content of the body of the page, trimmed; otherwise it returns the
    extracted text, trimmed. The fetch is the only outbound call. *)
Theorem link_text_falls_back_to_body (W : World) (u : string) (s : State)
  (r : FetchResponse) (dom dom' : Document W) (article : option Article) :
  fetch W (GET u (Some "follow")) = inr r -> ok r = true ->
  JSDOM W (content r) u = inr dom ->
  Readability_parse W dom = inr (article, dom') ->
  (blank (default "" (article ≫= textContent)) = true ->
   fetchTextFromLink W u s =
     (Normal (trim (default "" (body_textContent W dom'))),
      logged (Fetch (GET u (Some "follow"))) s)) /\
  (blank (default "" (article ≫= textContent)) = false ->
   fetchTextFromLink W u s =
     (Normal (trim (default "" (article ≫= textContent))),
      logged (Fetch (GET u (Some "follow"))) s)).
Proof.
  intros Hfetch Hok Hdom Hparse.
  assert (Hrun : fetchTextFromLink W u s =
                 (if truthy_field (article ≫= textContent) &&
                     Nat.ltb 0 (String.length
                                  (trim (default "" (article ≫= textContent))))
                  then Normal (trim (default "" (article ≫= textContent)))
                  else Normal (trim (default "" (body_textContent W dom'))),
                  logged (Fetch (GET u (Some "follow"))) s)).
  { unfold fetchTextFromLink, do_fetch, call, mbind, M_bind.
    rewrite Hfetch. cbn. rewrite Hok. cbn. rewrite Hdom. cbn.
    rewrite Hparse. cbn. now destruct (_ && _). }
  rewrite Hrun, JSFacts.trim_length_blank.
  split; intros Hblank; rewrite Hblank; cbn [negb].
  - now rewrite andb_false_r.
  - rewrite andb_true_r.
    destruct (article ≫= textContent) as [extracted |]; [| discriminate].
    cbn [default truthy_field] in *. unfold truthy_string.
    destruct (String.eqb_spec extracted ""); [subst; discriminate | reflexivity].
Qed.

End ProcessFacts.

(** ** Properties of the form *)
Module IndexFacts.
Import JS Index.

(** C10. Every submission sends exactly one request, a POST to the
    endpoint of the route, whose body is the serialised submission: it
    always asks for publishing (postToBlogger is true), names the
    selected variant as its type, and carries the payload field of that
    variant and neither of the other two. *)
Theorem submission_always_publishes (B : Browser) (st : Home) :
  requests (handleSubmit B st) = [submit_request st] /\
  Process.url (submit_request st) = "/api/process" /\
  Process.http_method (submit_request st) = "POST" /\
  Process.payload (submit_request st)
    = Process.JsonBody (stringify (submission st)) /\
  Process.InputBody.postToBlogger (submission st) = Some true /\
  Process.InputBody.type (submission st) = Some (tag (inputType st)) /\
  (exists fields,
     stringify (submission st) = JObj fields /\
     own "postToBlogger" fields = Some (JBool true) /\
     own "type" fields = Some (JStr (tag (inputType st))) /\
     own "text" fields =
       match inputType st with Text => Some (JStr (text st)) | _ => None end /\
     own "voiceUrl" fields =
       match inputType st with Voice => Some (JStr (voiceUrl st)) | _ => None end /\
     own "link" fields =
       match inputType st with Link => Some (JStr (link st)) | _ => None end) /\
  match inputType st with
  | Text =>
      Process.InputBody.text (submission st) = Some (text st) /\
      Process.InputBody.voiceUrl (submission st) = None /\
      Process.InputBody.link (submission st) = None
  | Voice =>
      Process.InputBody.text (submission st) = None /\
      Process.InputBody.voiceUrl (submission st) = Some (voiceUrl st) /\
      Process.InputBody.link (submission st) = None
  | Link =>
      Process.InputBody.text (submission st) = None /\
      Process.InputBody.voiceUrl (submission st) = None /\
      Process.InputBody.link (submission st) = Some (link st)
  end.
Proof.
  split.
  { unfold handleSubmit. destruct (fetch B (submit_request st)) as [e | r];
      [reflexivity |].
    destruct (negb (Process.ok r)).
    - destruct (Get _ "error"); reflexivity.
    - destruct (JSON_parse B (Process.content r)); reflexivity. }
  do 5 (split; [reflexivity |]).
  split.
  - eexists. split; [reflexivity |].
    unfold submission. destruct (inputType st); cbn; repeat split.
  - unfold submission. destruct (inputType st); cbn; repeat split.
Qed.

(** With the link variant selected, a draft left in the text area does
    not travel. *)
Example link_submission :
  submit_request
    {| inputType := Link; text := "rascunho"; voiceUrl := "";
       link := "https://example.com/selic"; posting := false;
       result := JNull; error := JNull |}
  = {| Process.url := "/api/process";
       Process.http_method := "POST";
       Process.http_headers := [("Content-Type", "application/json")];
       Process.payload :=
         Process.JsonBody
           (JObj [("type", JStr "link");
                  ("link", JStr "https://example.com/selic");
                  ("postToBlogger", JBool true)]);
       Process.redirect := None |}.
Proof. reflexivity. Qed.

(** The route, given the body the form sends, takes the publishing
    branch. *)
Lemma form_requests_publishing (st : Home) :
  truthy_flag (Process.InputBody.postToBlogger (submission st)) = true.
Proof. reflexivity. Qed.

End IndexFacts.

(** ** The properties on concrete scenarios *)
Module Witness.
Import JS Process Observation ProcessFacts Scenario.

(** The reference parser on the contents the scenarios use. *)
Example parse_empty_object : Reference.JSON_parse "{}" = inr (JObj []).
Proof. reflexivity. Qed.

Example parse_not_json :
  Reference.JSON_parse "not json" = inl (SyntaxError "Unexpected token in JSON").
Proof. reflexivity. Qed.

Example parse_good_summary :
  Reference.JSON_parse good_summary
  = inr (JObj [("title", JStr "Selic em alta");
               ("html", JStr "<p>O Copom elevou a Selic.</p>")]).
Proof. reflexivity. Qed.

Example parse_nested :
  Reference.JSON_parse " [1, -2.5e+3, true, null, {}, [[]]] "
  = inr (JArr [JNum "1"; JNum "-2.5e+3"; JBool true; JNull; JObj [];
               JArr [JArr []]]).
Proof. reflexivity. Qed.

Example parse_trailing_comma :
  Reference.JSON_parse "[1,]" = inl (SyntaxError "Unexpected token in JSON").
Proof. reflexivity. Qed.

(** The whole pipeline with publishing: the chat completion, the image,
    the token exchange and the creation of the post, in this order. *)
Example happy_path_publishes :
  serve happy (post (text_body (Some true))) =
    {| res := {| statusCode := 200; headers := [];
                 sent :=
                   Some (ResultBody (Some (JStr "Selic em alta"))
                           (html_template image "Selic em alta"
                              "<p>O Copom elevou a Selic.</p>")
                           image
                           (Some (JStr "https://blog.example/2026/11/selic.html"))) |};
       calls :=
         [ChatCompletion (chat_params copom);
          ImageGeneration (image_params "Selic em alta");
          Fetch (token_request "client-1" "s3cret" "1//refresh");
          Fetch (post_request "4242" "ya29.a0" (Some (JStr "Selic em alta"))
                   (html_template image "Selic em alta"
                      "<p>O Copom elevou a Selic.</p>"))] |}.
Proof. reflexivity. Qed.

(** The link variant: the page is fetched and the extracted text is what
    the summarizer receives. *)
Example link_variant :
  calls (serve happy (post link_body)) =
    [Fetch (GET "https://example.com/selic" (Some "follow"));
     ChatCompletion (chat_params "Copom eleva a Selic.");
     ImageGeneration (image_params "Selic em alta")].
Proof. reflexivity. Qed.

Lemma method_not_allowed_witness :
  statusCode (res (serve happy {| method := Some "GET"; body := None |})) = 405 /\
  sent (res (serve happy {| method := Some "GET"; body := None |}))
    = Some (ErrorBody "Method not allowed") /\
  headers (res (serve happy {| method := Some "GET"; body := None |}))
    = [("Allow", ["POST"])] /\
  calls (serve happy {| method := Some "GET"; body := None |}) = [].
Proof. apply method_not_allowed. discriminate. Defined.

Lemma missing_payload_is_rejected_witness :
  rejected happy (post (empty_body "text")) "Texto ausente" /\
  rejected happy (post (empty_body "link")) "Link ausente" /\
  rejected happy (post (empty_body "voice")) "voiceUrl ausente".
Proof.
  split; [| split].
  - apply (missing_payload_is_rejected happy _ (empty_body "text"));
      reflexivity.
  - apply (missing_payload_is_rejected happy _ (empty_body "link"));
      reflexivity.
  - apply (missing_payload_is_rejected happy _ (empty_body "voice"));
      reflexivity.
Defined.

Lemma unknown_type_is_summarized_witness :
  sourceText happy (empty_body "video") init = (Normal "", init) /\
  statusCode (res (serve happy (post (empty_body "video")))) <> 400 /\
  exists rest,
    calls (serve happy (post (empty_body "video")))
      = ChatCompletion (chat_params "") :: rest.
Proof.
  apply (unknown_type_is_summarized happy _ (empty_body "video") "video");
    first [reflexivity | discriminate].
Defined.



(** C2 on a world without blog identifier and on the happy one. *)
Lemma token_exchange_precedes_post_witness :
  postToBlogger no_blog (Some (JStr "Selic em alta")) "<p>Selic</p>" init
    = (Throw (Error blog_id_missing), init) /\
  exists tok pst,
    token_event tok /\ post_event pst /\
    calls (postToBlogger happy (Some (JStr "Selic em alta")) "<p>Selic</p>" init).2
      = ([] ++ [tok; pst])%list.
Proof.
  split.
  - apply (proj1 (token_exchange_precedes_post no_blog
                    (Some (JStr "Selic em alta")) "<p>Selic</p>" init)).
    reflexivity.
  - apply (proj1 (proj2 (token_exchange_precedes_post happy
                           (Some (JStr "Selic em alta")) "<p>Selic</p>" init))
             {| post_url := Some (JStr "https://blog.example/2026/11/selic.html");
                post_id := Some (JStr "7") |}).
    reflexivity.
Defined.

(** C2 as the specification states it fails: in [no_blog] the three
    credentials are set and only the blog identifier is missing; the
    publisher throws the configuration error with an empty log, so the
    error does not come after a token exchange. *)
Lemma blog_id_checked_first_counterexample :
  env no_blog !! "BLOGGER_BLOG_ID" = None /\
  credentials_set no_blog = true /\
  postToBlogger no_blog (Some (JStr "Selic em alta")) "<p>Selic</p>" init
    = (Throw (Error "BLOGGER_BLOG_ID ausente"), init) /\
  calls (serve no_blog (post (text_body (Some true)))) =
    [ChatCompletion (chat_params copom);
     ImageGeneration (image_params "Selic em alta");
     ConsoleError (Error "BLOGGER_BLOG_ID ausente")] /\
  ~ (exists e,
       e ∈ calls (postToBlogger no_blog (Some (JStr "Selic em alta"))
                    "<p>Selic</p>" init).2 /\
       is_token_exchange e = true).
Proof.
  repeat split; try reflexivity.
  intros (e & Hin & _). vm_compute in Hin. inversion Hin.
Qed.

(** C3 without the refresh token. *)
Lemma missing_credentials_stop_publishing_witness :
  Forall (fun e => is_create_post e = false)
    (calls (serve no_refresh (post (text_body (Some true))))) /\
  statusCode (res (serve no_refresh (post (text_body (Some true))))) <> 200 /\
  statusCode (res (serve no_refresh (post (text_body (Some true))))) = 500 /\
  sent (res (serve no_refresh (post (text_body (Some true)))))
    = Some (ErrorBody "Vari?veis GOOGLE_CLIENT_ID/SECRET/REFRESH_TOKEN ausentes").
Proof.
  destruct (missing_credentials_stop_publishing no_refresh
              (post (text_body (Some true))) (text_body (Some true))
              eq_refl eq_refl (or_intror (or_intror eq_refl)))
    as (Hposts & Hnot200 & Hpublish).
  destruct (Hpublish
              {| title := Some (JStr "Selic em alta");
                 summaryHtml := Some (JStr "<p>O Copom elevou a Selic.</p>") |}
              image
              (html_template image "Selic em alta" "<p>O Copom elevou a Selic.</p>")
              {| res := res init;
                 calls := [ChatCompletion (chat_params copom);
                           ImageGeneration (image_params "Selic em alta")] |}
              eq_refl eq_refl eq_refl) as (H500 & Hsent & _).
  repeat split; assumption.
Defined.

(** C4 without the flag, and with it. *)
Lemma publishing_only_on_request_witness :
  (Forall (fun e => is_token_exchange e = false /\ is_create_post e = false)
     (calls (serve happy (post (text_body None)))) /\
   exists t html img,
     sent (res (serve happy (post (text_body None))))
       = Some (ResultBody t html img undefined)) /\
  exists b s1 s2 p,
    body (post (text_body (Some true))) = Some b /\
    truthy_flag (InputBody.postToBlogger b) = true /\
    postToBlogger happy (Some (JStr "Selic em alta"))
      (html_template image "Selic em alta" "<p>O Copom elevou a Selic.</p>")
      s1 = (Normal p, s2) /\
    post_url p = Some (JStr "https://blog.example/2026/11/selic.html").
Proof.
  split.
  - destruct (proj1 (publishing_only_on_request happy (post (text_body None))))
      as [Hquiet Hurl].
    + intros b [= <-]. reflexivity.
    + split; [exact Hquiet | apply Hurl; reflexivity].
  - apply (proj2 (publishing_only_on_request happy
                    (post (text_body (Some true))))
             (Some (JStr "Selic em alta")) _ image).
    reflexivity.
Defined.

(** C6 on a page with an article, and on one where Readability finds
    white space only. *)
Lemma link_text_falls_back_to_body_witness :
  fetchTextFromLink happy "https://example.com/selic" init
    = (Normal "Copom eleva a Selic.",
       logged (Fetch (GET "https://example.com/selic" (Some "follow"))) init) /\
  fetchTextFromLink blank_page "https://example.com/selic" init
    = (Normal "Menu Copom eleva a Selic.",
       logged (Fetch (GET "https://example.com/selic" (Some "follow"))) init).
Proof.
  split.
  - apply (proj2 (link_text_falls_back_to_body happy
                    "https://example.com/selic" init
                    {| status := 200; content := page |} page page found
                    eq_refl eq_refl eq_refl eq_refl)).
    reflexivity.
  - apply (proj1 (link_text_falls_back_to_body blank_page
                    "https://example.com/selic" init
                    {| status := 200; content := page |} page page nothing_found
                    eq_refl eq_refl eq_refl eq_refl)).
    reflexivity.
Defined.

(** C8 on the happy path: the html of the answer, written out. *)
Lemma html_wraps_image_witness :
  exists sm img u ts fragment,
    sent (res (serve happy (post (text_body None)))) =
      Some (ResultBody (title sm)
              (String "010" "      <div style=" ++
               String "034" "text-align:center;margin:0 0 16px 0" ++
               String "034" ">" ++
               String "010" "        <img src=" ++ String "034" img ++
               String "034" " alt=" ++ String "034" ts ++
               String "034" " style=" ++ String "034" "max-width:100%;height:auto" ++
               String "034" " />" ++
               String "010" "      </div>" ++
               String "010" "      " ++ fragment ++
               String "010" "    ")
              img u) /\
    (exists text s s',
       summarizeFinancePortuguese happy text s = (Normal sm, s')) /\
    ToString happy (title sm) = inr ts /\
    ToString happy (summaryHtml sm) = inr fragment /\
    (forall t, title sm = Some (JStr t) -> ts = t) /\
    (forall h, summaryHtml sm = Some (JStr h) -> fragment = h) /\
    (forall html,
       sent (res (serve happy (post (text_body None)))) =
         Some (ResultBody (title sm) html img u) ->
       html <> fragment).
Proof. apply (html_wraps_image happy (post (text_body None))). reflexivity. Defined.

End Witness.

(** ** Further properties of the route and of the form *)
Module Coverage.
Import JS Process Observation Delivery ProcessFacts.

(** *** Helpers *)

Lemma truthy_nonempty (s : string) : s <> "" -> truthy_string s = true.
Proof.
  intros H. unfold truthy_string.
  destruct (String.eqb_spec s ""); [contradiction | reflexivity].
Qed.

Lemma falsy_empty (o : option string) :
  truthy_field o = false -> o = None \/ o = Some "".
Proof.
  destruct o as [s |]; [| now left]. cbn. unfold truthy_string.
  destruct (String.eqb_spec s ""); [subst; now right | discriminate].
Qed.

Section Helpers.
Variable W : World.

Lemma source_return req b m :
  method req = Some "POST" -> body req = Some b ->
  truthy_field (InputBody.type b) = true ->
  sourceText W b init = reply 400 (ErrorBody m) init ->
  answered W req 400 (ErrorBody m) [].
Proof.
  intros Hm Hb Ht Hsrc. unfold answered.
  rewrite (serve_post W req b Hm Hb Ht). unfold artifacts.
  rewrite (bind_return _ _ _ _ Hsrc). now cbn.
Qed.

Lemma source_throw req b e s1 :
  method req = Some "POST" -> body req = Some b ->
  truthy_field (InputBody.type b) = true ->
  sourceText W b init = (Throw e, s1) ->
  truthy_string (message e) = true ->
  answered W req 500 (ErrorBody (message e)) (calls s1 ++ [ConsoleError e]).
Proof.
  intros Hm Hb Ht Hsrc Hmsg. unfold answered.
  rewrite (serve_post W req b Hm Hb Ht). unfold artifacts.
  rewrite (bind_throw _ _ _ _ _ Hsrc). cbn. now rewrite Hmsg.
Qed.

(** Once the source text is there, the chat completion is the next call
    and the answer is a 200 or a 500. *)
Lemma after_source req b text s1 :
  method req = Some "POST" -> body req = Some b ->
  truthy_field (InputBody.type b) = true ->
  sourceText W b init = (Normal text, s1) ->
  (statusCode (res (serve W req)) = 200 \/
   statusCode (res (serve W req)) = 500) /\
  exists rest,
    calls (serve W req)
    = (calls s1 ++ ChatCompletion (chat_params text) :: rest)%list.
Proof.
  intros Hm Hb Ht Hsrc.
  rewrite (serve_post W req b Hm Hb Ht), (artifacts_run W b _ _ _ Hsrc).
  destruct (summarize_state W text s1) as [Hs2 Hr2].
  destruct (summarizeFinancePortuguese W text s1) as [[sm | e |] s2];
    cbn in Hs2, Hr2; subst s2; [| | contradiction].
  2: { cbn. split; [now right |]. exists [ConsoleError e].
       now rewrite <- app_assoc. }
  destruct (io_generateImageBase64 W (title sm)
              (logged (ChatCompletion (chat_params text)) s1))
    as (Hr3 & _ & new3 & Hc3 & _).
  destruct (generateImageBase64 W (title sm) _) as [[img | e |] s3];
    cbn in Hr3, Hc3; [| | contradiction].
  2: { cbn. split; [now right |]. rewrite Hc3.
       exists (new3 ++ [ConsoleError e])%list. now rewrite <- !app_assoc. }
  destruct (render_silent W img sm s3) as [Hs4 Hr4].
  destruct (render W img sm s3) as [[html | e |] s4];
    cbn in Hs4, Hr4; subst s4; [| | contradiction].
  2: { cbn. split; [now right |]. rewrite Hc3.
       exists (new3 ++ [ConsoleError e])%list. now rewrite <- !app_assoc. }
  destruct (io_publish W b (title sm) html s3) as (Hr5 & _ & new5 & Hc5 & _).
  destruct (publish W b (title sm) html s3) as [[u | e |] s5];
    cbn in Hr5, Hc5; [| | contradiction]; cbn; rewrite Hc5, Hc3.
  - split; [now left |]. exists (new3 ++ new5)%list. now rewrite <- !app_assoc.
  - split; [now right |]. exists (new3 ++ new5 ++ [ConsoleError e])%list.
    now rewrite <- !app_assoc.
Qed.

(** The source text of each variant when its payload is there. *)
Lemma sourceText_text b t s :
  InputBody.type b = Some "text" -> InputBody.text b = Some t -> t <> "" ->
  sourceText W b s = (Normal t, s).
Proof.
  intros Ht Hp Hne. unfold sourceText. rewrite Ht, Hp.
  rewrite bool_decide_eq_true_2 by reflexivity. cbn.
  now rewrite (truthy_nonempty t Hne).
Qed.

Lemma sourceText_link b u s :
  InputBody.type b = Some "link" -> InputBody.link b = Some u -> u <> "" ->
  sourceText W b s = fetchTextFromLink W u s.
Proof.
  intros Ht Hp Hne. unfold sourceText. rewrite Ht, Hp.
  rewrite bool_decide_eq_false_2 by discriminate.
  rewrite bool_decide_eq_true_2 by reflexivity. cbn.
  now rewrite (truthy_nonempty u Hne).
Qed.

Lemma sourceText_voice b v s :
  InputBody.type b = Some "voice" -> InputBody.voiceUrl b = Some v -> v <> "" ->
  sourceText W b s = transcribeFromUrl W v s.
Proof.
  intros Ht Hp Hne. unfold sourceText. rewrite Ht, Hp.
  rewrite !bool_decide_eq_false_2 by discriminate.
  rewrite bool_decide_eq_true_2 by reflexivity. cbn.
  now rewrite (truthy_nonempty v Hne).
Qed.

Lemma fetch_link_failed u r s :
  fetch W (GET u (Some "follow")) = inr r -> ok r = false ->
  fetchTextFromLink W u s =
    (Throw (Error ("Falha ao buscar link: " ++ decimal (status r))),
     logged (Fetch (GET u (Some "follow"))) s).
Proof.
  intros Hf Hok. unfold fetchTextFromLink, do_fetch, call, mbind, M_bind.
  rewrite Hf. cbn. now rewrite Hok.
Qed.

Lemma download_failed v r s :
  fetch W (GET v None) = inr r -> ok r = false ->
  transcribeFromUrl W v s =
    (Throw (Error ("Falha ao baixar ?udio: " ++ decimal (status r))),
     logged (Fetch (GET v None)) s).
Proof.
  intros Hf Hok. unfold transcribeFromUrl, do_fetch, call, mbind, M_bind.
  rewrite Hf. cbn. now rewrite Hok.
Qed.

Lemma transcribed v r t s :
  fetch W (GET v None) = inr r -> ok r = true ->
  audio_transcriptions_create W (transcription_of (content r)) = inr t ->
  transcribeFromUrl W v s =
    (Normal t,
     logged (Transcription (transcription_of (content r)))
       (logged (Fetch (GET v None)) s)).
Proof.
  intros Hf Hok Ht. unfold transcribeFromUrl, do_fetch, call, mbind, M_bind.
  rewrite Hf. cbn. rewrite Hok. cbn. unfold transcription_of in Ht.
  now rewrite Ht.
Qed.

End Helpers.

(** *** The normalizer *)

(** X1. For the link variant, when the page answers with a status outside
    200-299, the handler answers 500 with the message of the failed fetch,
    which names the status; the fetch is the only outbound call. *)
Theorem link_fetch_failure (W : World) (req : NextApiRequest)
  (b : InputBody.t) (u : string) (r : FetchResponse) :
  method req = Some "POST" -> body req = Some b ->
  InputBody.type b = Some "link" -> InputBody.link b = Some u -> u <> "" ->
  fetch W (GET u (Some "follow")) = inr r -> ok r = false ->
  answered W req 500
    (ErrorBody ("Falha ao buscar link: " ++ decimal (status r)))
    [Fetch (GET u (Some "follow"));
     ConsoleError (Error ("Falha ao buscar link: " ++ decimal (status r)))].
Proof.
  intros Hm Hb Ht Hl Hu Hf Hok.
  apply (source_throw W req b
           (Error ("Falha ao buscar link: " ++ decimal (status r)))
           (logged (Fetch (GET u (Some "follow"))) init) Hm Hb);
    [now rewrite Ht | | reflexivity].
  rewrite (sourceText_link W b u init Ht Hl Hu). now apply fetch_link_failed.
Qed.

(** X2. For the voice variant, when the recording cannot be downloaded
    (a status outside 200-299), the handler answers 500 with the message
    of the failed download; the transcription service is never called. *)
Theorem audio_download_failure (W : World) (req : NextApiRequest)
  (b : InputBody.t) (v : string) (r : FetchResponse) :
  method req = Some "POST" -> body req = Some b ->
  InputBody.type b = Some "voice" -> InputBody.voiceUrl b = Some v -> v <> "" ->
  fetch W (GET v None) = inr r -> ok r = false ->
  answered W req 500
    (ErrorBody ("Falha ao baixar ?udio: " ++ decimal (status r)))
    [Fetch (GET v None);
     ConsoleError (Error ("Falha ao baixar ?udio: " ++ decimal (status r)))].
Proof.
  intros Hm Hb Ht Hv Hne Hf Hok.
  apply (source_throw W req b
           (Error ("Falha ao baixar ?udio: " ++ decimal (status r)))
           (logged (Fetch (GET v None)) init) Hm Hb);
    [now rewrite Ht | | reflexivity].
  rewrite (sourceText_voice W b v init Ht Hv Hne). now apply download_failed.
Qed.

(** The user message of the chat completion, process.ts:48-68: the
    instructions, then the text between two lines of three double quotes
    (the double quote is the character 034, the line feed the character
    010); the system message and the model are fixed. *)
Lemma prompt_carries_text (t : string) :
  chat_model (chat_params t) = "gpt-4o-mini" /\
  exists lead,
    messages (chat_params t) =
      [("system", "Voc? escreve resumos para um blog financeiro brasileiro.");
       ("user",
        lead ++ "CONTE?DO:" ++
        String "010" (String "034" (String "034" (String "034" (String "010" t)))) ++
        String "010" (String "034" (String "034" (String "034" ""))))].
Proof.
  split; [reflexivity |].
  exists ("Voc? ? um redator financeiro em PT-BR. Receba o conte?do a seguir (pode ser transcri??o de voz, texto bruto ou not?cia) e produza:" ++ nl ++
          "- Um t?tulo curto e chamativo (<= 70 caracteres)" ++ nl ++
          "- Um resumo estruturado e objetivo, com subt?tulos quando fizer sentido" ++ nl ++
          "- Tom profissional, educativo, sem jarg?es excessivos" ++ nl ++
          "- Inclua 3 a 5 bullet points de insights pr?ticos" ++ nl ++
          nl ++
          "Retorne APENAS um JSON com as chaves: title, html. N?o inclua c?digo, markdown ou explica??es." ++ nl ++
          nl).
  reflexivity.
Qed.

(** X3. For the voice variant, when the recording is downloaded and
    transcribed, the bytes downloaded are the file sent for transcription
    (named audio, Portuguese, model whisper-1) and the transcript is the
    text the summarizer is prompted with: the log starts with the
    download, the transcription and the chat completion on the
    transcript. The user message of that chat completion carries the
    transcript after the heading of the content, between two lines of
    three double quotes (the character 034; the line feed is the
    character 010). *)
Theorem transcript_is_summarized (W : World) (req : NextApiRequest)
  (b : InputBody.t) (v : string) (r : FetchResponse) (t : string) :
  method req = Some "POST" -> body req = Some b ->
  InputBody.type b = Some "voice" -> InputBody.voiceUrl b = Some v -> v <> "" ->
  fetch W (GET v None) = inr r -> ok r = true ->
  audio_transcriptions_create W (transcription_of (content r)) = inr t ->
  (exists rest,
    calls (serve W req) =
      Fetch (GET v None) :: Transcription (transcription_of (content r))
      :: ChatCompletion (chat_params t) :: rest) /\
  exists p rest lead,
    calls (serve W req) =
      Fetch (GET v None) :: Transcription (transcription_of (content r))
      :: ChatCompletion p :: rest /\
    chat_model p = "gpt-4o-mini" /\
    messages p =
      [("system", "Voc? escreve resumos para um blog financeiro brasileiro.");
       ("user",
        lead ++ "CONTE?DO:" ++
        String "010" (String "034" (String "034" (String "034" (String "010" t)))) ++
        String "010" (String "034" (String "034" (String "034" ""))))].
Proof.
  intros Hm Hb Ht Hv Hne Hf Hok Htr.
  assert (Htruthy : truthy_field (InputBody.type b) = true) by now rewrite Ht.
  assert (Hsrc : sourceText W b init =
                 (Normal t,
                  logged (Transcription (transcription_of (content r)))
                    (logged (Fetch (GET v None)) init))).
  { rewrite (sourceText_voice W b v init Ht Hv Hne). now apply transcribed. }
  destruct (after_source W req b t _ Hm Hb Htruthy Hsrc) as [_ [rest Hrest]].
  destruct (prompt_carries_text t) as [Hmodel [lead Hlead]].
  split; [exists rest; rewrite Hrest; reflexivity |].
  exists (chat_params t), rest, lead. rewrite Hrest.
  split; [reflexivity |]. split; assumption.
Qed.

(** X4. For the text variant with a non-empty text, the text is used as
    it is (it is not trimmed and nothing is fetched): the chat completion
    on the prompt built from this very text is the first outbound call,
    and the answer is a 200 or a 500. The user message of that chat
    completion carries the text after the heading of the content, between
    two lines of three double quotes (the character 034; the line feed is
    the character 010). *)
Theorem text_is_used_verbatim (W : World) (req : NextApiRequest)
  (b : InputBody.t) (t : string) :
  method req = Some "POST" -> body req = Some b ->
  InputBody.type b = Some "text" -> InputBody.text b = Some t -> t <> "" ->
  sourceText W b init = (Normal t, init) /\
  (statusCode (res (serve W req)) = 200 \/
   statusCode (res (serve W req)) = 500) /\
  (exists rest, calls (serve W req) = ChatCompletion (chat_params t) :: rest) /\
  exists p rest lead,
    calls (serve W req) = ChatCompletion p :: rest /\
    chat_model p = "gpt-4o-mini" /\
    messages p =
      [("system", "Voc? escreve resumos para um blog financeiro brasileiro.");
       ("user",
        lead ++ "CONTE?DO:" ++
        String "010" (String "034" (String "034" (String "034" (String "010" t)))) ++
        String "010" (String "034" (String "034" (String "034" ""))))].
Proof.
  intros Hm Hb Ht Htext Hne.
  assert (Htruthy : truthy_field (InputBody.type b) = true) by now rewrite Ht.
  assert (Hsrc : sourceText W b init = (Normal t, init))
    by now apply sourceText_text.
  split; [assumption |].
  destruct (after_source W req b t init Hm Hb Htruthy Hsrc) as [Hcode [rest Hrest]].
  destruct (prompt_carries_text t) as [Hmodel [lead Hlead]].
  split; [assumption |]. split; [now exists rest |].
  exists (chat_params t), rest, lead. repeat split; assumption.
Qed.

(** *** Validation *)

(** X5. A POST request without a body, or whose body has no type or the
    empty string as its type, is answered 400 with the message of invalid
    parameters, and nothing is called. *)
Theorem malformed_request_is_rejected (W : World) (req : NextApiRequest) :
  method req = Some "POST" ->
  body req = None \/
  (exists b, body req = Some b /\
             (InputBody.type b = None \/ InputBody.type b = Some "")) ->
  answered W req 400 (ErrorBody "Par?metros inv?lidos") [].
Proof.
  intros Hm Hbody.
  destruct (serve_cases W req) as [[Hm' _] | [(_ & _ & Hs) | (b & _ & Hb & Ht)]].
  - contradiction.
  - unfold answered. now rewrite Hs.
  - destruct Hbody as [Hnone | (b' & Hb' & Htype)]; [congruence |].
    assert (b' = b) as -> by congruence.
    destruct Htype as [H | H]; rewrite H in Ht; discriminate.
Qed.

(** X6. Submitting the form while the field of the selected variant is
    empty (as it is when the page opens) is answered 400 by the route
    with the validation message of that variant, and nothing is called:
    the empty string counts as a missing payload. *)
Theorem empty_form_is_rejected (W : World) (st : Index.Home) :
  selected st = "" ->
  answered W (arrives st) 400
    (ErrorBody (missing_message (Index.inputType st))) [].
Proof.
  unfold selected. intros Hsel.
  apply (source_return W (arrives st) (Index.submission st));
    [reflexivity | reflexivity
    | cbn; destruct (Index.inputType st); reflexivity |].
  unfold sourceText, Index.submission.
  destruct (Index.inputType st); cbn; rewrite Hsel; reflexivity.
Qed.

(** X7. Submitting the form with a non-empty field for the selected
    variant always passes validation: the route answers 200 or 500, never
    400 or 405. *)
Theorem filled_form_passes_validation (W : World) (st : Index.Home) :
  selected st <> "" ->
  statusCode (res (serve W (arrives st))) = 200 \/
  statusCode (res (serve W (arrives st))) = 500.
Proof.
  unfold selected. intros Hsel.
  assert (Htype : truthy_field (InputBody.type (Index.submission st)) = true)
    by (cbn; destruct (Index.inputType st); reflexivity).
  destruct (stage_sourceText W (Index.submission st) init) as [_ Hres].
  destruct (sourceText W (Index.submission st) init) as [[text | e |] s1] eqn:Hsrc.
  - exact (proj1 (after_source W (arrives st) _ text s1
                    eq_refl eq_refl Htype Hsrc)).
  - right. rewrite (serve_post W (arrives st) _ eq_refl eq_refl Htype).
    unfold artifacts. now rewrite (bind_throw _ _ _ _ _ Hsrc).
  - exfalso. revert Hsrc. destruct (Index.inputType st) eqn:Hty.
    + rewrite (sourceText_text W _ (Index.text st) init);
        [discriminate | cbn; now rewrite Hty .. | assumption].
    + rewrite (sourceText_voice W _ (Index.voiceUrl st) init);
        [| cbn; now rewrite Hty .. | assumption].
      intros Hrun.
      destruct (io_transcribeFromUrl W (Index.voiceUrl st) init) as [Hr _].
      rewrite Hrun in Hr. now apply Hr.
    + rewrite (sourceText_link W _ (Index.link st) init);
        [| cbn; now rewrite Hty .. | assumption].
      intros Hrun.
      destruct (io_fetchTextFromLink W (Index.link st) init) as [Hr _].
      rewrite Hrun in Hr. now apply Hr.
Qed.

(** *** Answers and the log *)

Lemma artifact_event_no_log e : artifact_event e -> is_console_error e = false.
Proof. now intros [[] | [[] | []]]. Qed.

Lemma publisher_event_no_log e :
  token_event e \/ post_event e -> is_console_error e = false.
Proof. now intros [[] | []]. Qed.

(** The four shapes of the final state. *)
Lemma serve_shape (W : World) (req : NextApiRequest) :
  answered W req 405 (ErrorBody "Method not allowed") [] \/
  (exists m,
     statusCode (res (serve W req)) = 400 /\
     sent (res (serve W req)) = Some (ErrorBody m) /\
     Forall (fun ev => is_console_error ev = false) (calls (serve W req))) \/
  (exists e before,
     statusCode (res (serve W req)) = 500 /\
     sent (res (serve W req)) =
       Some (ErrorBody (if truthy_string (message e) then message e
                        else "Erro interno")) /\
     calls (serve W req) = (before ++ [ConsoleError e])%list /\
     Forall (fun ev => is_console_error ev = false) before) \/
  (exists t h i u,
     statusCode (res (serve W req)) = 200 /\
     sent (res (serve W req)) = Some (ResultBody t h i u) /\
     Forall (fun ev => is_console_error ev = false) (calls (serve W req))).
Proof.
  destruct (serve_cases W req)
    as [[_ Hs] | [(_ & _ & Hs) | (b & Hm & Hb & Ht)]].
  - left. unfold answered. now rewrite Hs.
  - right. left. exists "Par?metros inv?lidos". rewrite Hs. cbn.
    repeat split. constructor.
  - rewrite (serve_post W req b Hm Hb Ht).
    destruct (stage_artifacts W b init) as [(new & Hc & Hnew) Hres].
    assert (Hquiet : Forall (fun ev => is_console_error ev = false) new)
      by (eapply Forall_impl; [exact Hnew | apply artifact_event_no_log]).
    destruct (artifacts W b init) as [[[[sm img] html] | e |] s1];
      cbn in Hc, Hres.
    + destruct (io_publish W b (title sm) html s1)
        as (Hr & _ & new5 & Hc5 & Hnew5).
      assert (Hquiet5 : Forall (fun ev => is_console_error ev = false) new5)
        by (eapply Forall_impl; [exact Hnew5 | apply publisher_event_no_log]).
      destruct (publish W b (title sm) html s1) as [[u | e |] s2];
        cbn in Hr, Hc5; [| | contradiction].
      * right. right. right. exists (title sm), html, img, u. cbn.
        repeat split. rewrite Hc5, Hc. now apply Forall_app.
      * right. right. left. exists e, (new ++ new5)%list. cbn.
        repeat split; [now rewrite Hc5, Hc | now apply Forall_app].
    + right. right. left. exists e, new. cbn.
      repeat split; [now rewrite Hc | assumption].
    + right. left. destruct Hres as [H400 [m Hm']]. exists m.
      repeat split; [assumption .. |]. now rewrite Hc.
Qed.

(** X8. An answer is a 500 exactly when the [catch] block ran: then the
    last line of the log is the logged error, logged once, and the body
    carries its message (the fallback text when the message is empty).
    Under any other status nothing is logged. *)
Theorem errors_are_logged_once (W : World) (req : NextApiRequest) :
  (statusCode (res (serve W req)) = 500 ->
   exists e before,
     calls (serve W req) = (before ++ [ConsoleError e])%list /\
     sent (res (serve W req)) =
       Some (ErrorBody (if truthy_string (message e) then message e
                        else "Erro interno")) /\
     Forall (fun ev => is_console_error ev = false) before) /\
  (statusCode (res (serve W req)) <> 500 ->
   Forall (fun ev => is_console_error ev = false) (calls (serve W req))).
Proof.
  destruct (serve_shape W req)
    as [(Hc & _ & Hl) | [(m & Hc & _ & Hl) | [(e & before & Hc & Hs & Hl & Hb)
                                             | (t & h & i & u & Hc & _ & Hl)]]].
  - split; [rewrite Hc; discriminate | intros _; rewrite Hl; constructor].
  - split; [rewrite Hc; discriminate | intros _; exact Hl].
  - split; [intros _; now exists e, before | contradiction].
  - split; [rewrite Hc; discriminate | intros _; exact Hl].
Qed.

(** X9. Every answer is either the 200 with the four-field envelope or an
    error body under 400, 405 or 500: no other status is used and an
    error never carries a title, an html or an image. *)
Theorem answer_is_envelope_or_error (W : World) (req : NextApiRequest) :
  (statusCode (res (serve W req)) = 200 /\
   exists t h i u, sent (res (serve W req)) = Some (ResultBody t h i u)) \/
  ((statusCode (res (serve W req)) = 400 \/
    statusCode (res (serve W req)) = 405 \/
    statusCode (res (serve W req)) = 500) /\
   exists m, sent (res (serve W req)) = Some (ErrorBody m)).
Proof.
  destruct (serve_shape W req)
    as [(Hc & Hs & _) | [(m & Hc & Hs & _) | [(e & before & Hc & Hs & _)
                                             | (t & h & i & u & Hc & Hs & _)]]];
    [right; eauto 6 .. | left; eauto 8].
Qed.

(** *** The illustrator *)

Lemma generate_inv (W : World) subject s img s' :
  generateImageBase64 W subject s = (Normal img, s') ->
  exists b64, img = "data:image/png;base64," ++ b64 /\ b64 <> "".
Proof.
  unfold generateImageBase64, call, mbind, M_bind.
  destruct (ToString W subject) as [e | text]; cbn; [discriminate |].
  destruct (images_generate W (image_params text)) as [e | b64]; cbn;
    [discriminate |].
  destruct b64 as [b64 |]; cbn; [| discriminate].
  unfold truthy_string. destruct (String.eqb_spec b64 ""); cbn;
    [discriminate |].
  intros [= <- _]. now exists b64.
Qed.

Lemma generate_empty (W : World) subject text b64 s :
  ToString W subject = inr text ->
  images_generate W (image_params text) = inr b64 ->
  truthy_field b64 = false ->
  generateImageBase64 W subject s =
    (Throw (Error "Falha ao gerar imagem"),
     logged (ImageGeneration (image_params text)) s).
Proof.
  intros Hs Hg Hb. unfold generateImageBase64, call, mbind, M_bind.
  rewrite Hs. cbn. rewrite Hg. cbn. now rewrite Hb.
Qed.

(** X10. When the image service answers without a payload (none, or an
    empty one), the handler answers 500 with the message of the failed
    generation, and the request for the image is the last outbound call:
    nothing is published, even if publishing was requested. *)
Theorem image_failure_stops_pipeline (W : World) (req : NextApiRequest)
  (b : InputBody.t) (text : string) (s1 : State) (sm : Summary) (s2 : State)
  (subject : string) (b64 : option string) :
  method req = Some "POST" -> body req = Some b ->
  truthy_field (InputBody.type b) = true ->
  sourceText W b init = (Normal text, s1) ->
  summarizeFinancePortuguese W text s1 = (Normal sm, s2) ->
  ToString W (title sm) = inr subject ->
  images_generate W (image_params subject) = inr b64 ->
  truthy_field b64 = false ->
  answered W req 500 (ErrorBody "Falha ao gerar imagem")
    (calls s2 ++ [ImageGeneration (image_params subject);
                  ConsoleError (Error "Falha ao gerar imagem")]).
Proof.
  intros Hm Hb Ht Hsrc Hsum Hsubject Hgen Hb64. unfold answered.
  rewrite (serve_post W req b Hm Hb Ht), (artifacts_run W b _ _ _ Hsrc), Hsum.
  rewrite (generate_empty W (title sm) subject b64 s2 Hsubject Hgen Hb64).
  cbn. repeat split. now rewrite <- app_assoc.
Qed.

(** X11. In every 200 answer the imageDataUrl is a data URL of type
    image/png in base64 with a payload that is not empty. *)
Theorem image_is_png_data_url (W : World) (req : NextApiRequest) :
  statusCode (res (serve W req)) = 200 ->
  exists t h u b64,
    sent (res (serve W req)) =
      Some (ResultBody t h ("data:image/png;base64," ++ b64) u) /\
    b64 <> "".
Proof.
  intros H200.
  destruct (serve_result W req)
    as [(b & sm & img & html & s1 & u & s2 & _ & _ & _ & Ha & _ & Hs) | [H _]];
    [| contradiction].
  destruct (artifacts_inv W b _ _ _ _ _ Ha)
    as (text & s1' & s2' & s3' & _ & _ & Hgen & _).
  destruct (generate_inv W _ _ _ _ Hgen) as (b64 & -> & Hne).
  exists (title sm), html, u, b64. now rewrite Hs.
Qed.

(** *** The summarizer *)

(** X12. When the chat completion comes back without content (none, or
    the empty string), the text that is parsed is the empty object: where
    that parses as such, the summarizer returns an undefined title and an
    undefined html, the image is requested for the text undefined, and a
    200 answer has no title and prints undefined in both holes of its
    html. *)
Theorem empty_completion_is_empty_object (W : World) (req : NextApiRequest)
  (b : InputBody.t) (text : string) (s1 : State) (completion : option string) :
  method req = Some "POST" -> body req = Some b ->
  truthy_field (InputBody.type b) = true ->
  sourceText W b init = (Normal text, s1) ->
  chat_completions_create W (chat_params text) = inr completion ->
  truthy_field completion = false ->
  JSON_parse W "{}" = inr (JObj []) ->
  summarizeFinancePortuguese W text s1 =
    (Normal {| title := undefined; summaryHtml := undefined |},
     logged (ChatCompletion (chat_params text)) s1) /\
  ImageGeneration (image_params "undefined") ∈ calls (serve W req) /\
  (forall t h i u,
     sent (res (serve W req)) = Some (ResultBody t h i u) ->
     t = undefined /\ h = html_template i "undefined" "undefined").
Proof.
  intros Hm Hb Ht Hsrc Hchat Hempty Hparse.
  assert (Hcontent : content_or_empty completion = "{}")
    by (unfold content_or_empty; now rewrite Hempty).
  rewrite <- Hcontent in Hparse.
  assert (Hsum := summarize_parsed W text s1 completion (JObj [])
                    undefined undefined Hchat Hparse eq_refl eq_refl).
  split; [exact Hsum |]. split.
  - destruct (serve_extends_artifacts W req b Hm Hb Ht) as [more ->].
    rewrite (artifacts_extends_image W b _ _ _ _ _ Hsrc Hsum).
    destruct (generate_state W undefined "undefined"
                (logged (ChatCompletion (chat_params text)) s1) eq_refl)
      as [Hgen _].
    cbn [title]. rewrite Hgen.
    cbn. rewrite !elem_of_app, !list_elem_of_singleton. auto.
  - intros t h i u Hsent.
    destruct (serve_result W req)
      as [(b' & sm & img & html & s1' & u' & s2 & _ & Hb' & _ & Ha & _ & Hs)
         | [_ [m Hm']]];
      [| congruence].
    assert (b' = b) as -> by congruence.
    rewrite Hs in Hsent. cbn in Hsent. injection Hsent as <- <- <- <-.
    destruct (artifacts_inv W b _ _ _ _ _ Ha)
      as (text' & s1'' & s2' & s3' & Hsrc' & Hsum' & _ & Hrender).
    rewrite Hsrc in Hsrc'. injection Hsrc' as <- <-.
    rewrite Hsum in Hsum'. injection Hsum' as <- <-.
    destruct (render_inv W _ _ _ _ _ Hrender) as (ts & hs & Hts & Hhs & ->).
    cbn in Hts, Hhs. injection Hts as <-. injection Hhs as <-. now split.
Qed.

(** *** The publisher *)
Section Publisher.
Variable W : World.
Variables clientId clientSecret refreshToken blogId : string.
Hypothesis Hconf : configured W clientId clientSecret refreshToken blogId.

(** With the configuration complete, the token exchange opens the
    publisher, and everything depends on its answer. *)
Lemma ensure_run s :
  ensureGoogleAccessToken W s =
    let s' := logged (Fetch (token_request clientId clientSecret refreshToken)) s in
    match fetch W (token_request clientId clientSecret refreshToken) with
    | inl e => (Throw e, s')
    | inr r =>
        match JSON_parse W (content r) with
        | inl e => (Throw e, s')
        | inr j =>
            if negb (ok r) then
              match Get j "error" with
              | inl e => (Throw e, s')
              | inr err =>
                  match (if truthy W err then ToString W err
                         else inr (decimal (status r))) with
                  | inl e => (Throw e, s')
                  | inr why => (Throw (Error ("OAuth error: " ++ why)), s')
                  end
              end
            else
              match Get j "access_token" with
              | inl e => (Throw e, s')
              | inr tok => (Normal tok, s')
              end
        end
    end.
Proof.
  destruct Hconf as (Hid & Hid' & Hsec & Hsec' & Href & Href' & _).
  unfold ensureGoogleAccessToken. rewrite Hid, Hsec, Href. cbn [truthy_field].
  rewrite !truthy_nonempty by assumption. cbn [negb orb default].
  unfold do_fetch, response_json, call, mbind, M_bind, logged.
  destruct (fetch W _) as [e | r]; cbn; [reflexivity |].
  destruct (JSON_parse W (content r)) as [e | j]; cbn; [reflexivity |].
  destruct (negb (ok r)).
  - destruct (Get j "error") as [e | err]; cbn; [reflexivity |].
    destruct (if truthy W err then _ else _); reflexivity.
  - destruct (Get j "access_token"); reflexivity.
Qed.

Lemma publisher_run t html s :
  postToBlogger W t html s =
    (accessToken ← ensureGoogleAccessToken W;
     bearer ← lift (ToString W accessToken);
     r ← do_fetch W (post_request blogId bearer t html);
     data ← response_json W r;
     if negb (ok r) then
       let m := GetOpt (GetOpt (Some data) "error") "message" in
       why ← lift (if truthy W m then ToString W m
                   else inr (decimal (status r)));
       throw (Error ("Blogger error: " ++ why))
     else
       u ← lift (Get data "url");
       i ← lift (Get data "id");
       mret {| post_url := u; post_id := i |}) s.
Proof.
  destruct Hconf as (_ & _ & _ & _ & _ & _ & Hblog & Hblog').
  unfold postToBlogger. rewrite Hblog. cbn [truthy_field default].
  now rewrite (truthy_nonempty blogId Hblog').
Qed.

(** The publisher once the token is granted: the post is submitted with
    the token as bearer, and everything depends on the answer. *)
Lemma granted_run t html s bearer :
  token_granted W clientId clientSecret refreshToken bearer ->
  postToBlogger W t html s =
    let s' :=
      logged (Fetch (post_request blogId bearer t html))
        (logged (Fetch (token_request clientId clientSecret refreshToken)) s) in
    match fetch W (post_request blogId bearer t html) with
    | inl e => (Throw e, s')
    | inr r =>
        match JSON_parse W (content r) with
        | inl e => (Throw e, s')
        | inr data =>
            if negb (ok r) then
              match (if truthy W (GetOpt (GetOpt (Some data) "error") "message")
                     then ToString W (GetOpt (GetOpt (Some data) "error") "message")
                     else inr (decimal (status r))) with
              | inl e => (Throw e, s')
              | inr why => (Throw (Error ("Blogger error: " ++ why)), s')
              end
            else
              match Get data "url" with
              | inl e => (Throw e, s')
              | inr u =>
                  match Get data "id" with
                  | inl e => (Throw e, s')
                  | inr i => (Normal {| post_url := u; post_id := i |}, s')
                  end
              end
        end
    end.
Proof.
  intros (r0 & j & Hf & Hok & Hj & Hnull & Hbearer).
  assert (Hget : Get j "access_token" = inr (GetOpt (Some j) "access_token"))
    by (destruct j; [contradiction | reflexivity ..]).
  rewrite publisher_run. unfold mbind at 1. unfold M_bind at 1.
  rewrite ensure_run. cbn zeta. rewrite Hf, Hj, Hok. cbn [negb].
  rewrite Hget. unfold mbind at 1. unfold M_bind at 1.
  rewrite Hbearer. cbn [lift mret M_ret].
  unfold do_fetch, response_json, call, mbind, M_bind, logged.
  destruct (fetch W (post_request blogId bearer t html)) as [e | r]; cbn;
    [reflexivity |].
  destruct (JSON_parse W (content r)) as [e | data]; cbn; [reflexivity |].
  destruct (negb (ok r)).
  - destruct (if truthy W _ then _ else _); reflexivity.
  - destruct (Get data "url") as [e | u]; cbn; [reflexivity |].
    destruct (Get data "id"); reflexivity.
Qed.

End Publisher.


(** X14. With the configuration complete, when the body of the answer of
    the token endpoint is not JSON, the publisher throws the parse error,
    whatever the status of the answer: the body is parsed before the
    status is looked at. The token exchange is its only call. *)
Theorem token_answer_must_be_json (W : World)
  (clientId clientSecret refreshToken blogId : string)
  (t : jsval) (html : string) (s : State) (r : FetchResponse) (e : Exn) :
  configured W clientId clientSecret refreshToken blogId ->
  fetch W (token_request clientId clientSecret refreshToken) = inr r ->
  JSON_parse W (content r) = inl e ->
  postToBlogger W t html s =
    (Throw e, logged (Fetch (token_request clientId clientSecret refreshToken)) s).
Proof.
  intros Hconf Hf Hj.
  rewrite (publisher_run W _ _ _ _ Hconf). unfold mbind at 1.
  unfold M_bind at 1. rewrite (ensure_run W _ _ _ _ Hconf). cbn zeta.
  now rewrite Hf, Hj.
Qed.

(** X15. With the configuration complete and the token granted, the
    publisher makes exactly two calls: the token exchange, then a POST to
    the posts collection of the configured blog with isDraft=false, whose
    Authorization header is the word Bearer followed by the granted
    token, whose content type is JSON and whose body is the document with
    the kind of a post, the title (left out when it is undefined) and the
    html as content. When the answer of the token endpoint has no
    access_token, the post is still submitted, and its Authorization
    header reads Bearer undefined. *)
Theorem granted_token_is_the_bearer (W : World)
  (clientId clientSecret refreshToken blogId : string)
  (t : jsval) (html : string) (s : State) (bearer : string) :
  configured W clientId clientSecret refreshToken blogId ->
  token_granted W clientId clientSecret refreshToken bearer ->
  calls (postToBlogger W t html s).2 =
    (calls s ++
     [Fetch (token_request clientId clientSecret refreshToken);
      Fetch {| url := ("https://www.googleapis.com/blogger/v3/blogs/" ++ blogId ++
                       "/posts/?isDraft=false&fetchImages=true&revert=false")%string;
               http_method := "POST";
               http_headers := [("Authorization", ("Bearer " ++ bearer)%string);
                                ("Content-Type", "application/json")];
               payload :=
                 JsonBody
                   (JObj match t with
                         | Some v => [("kind", JStr "blogger#post"); ("title", v);
                                      ("content", JStr html)]
                         | None => [("kind", JStr "blogger#post");
                                    ("content", JStr html)]
                         end);
               redirect := None |}])%list /\
  (forall r j,
     fetch W (token_request clientId clientSecret refreshToken) = inr r ->
     JSON_parse W (content r) = inr j ->
     GetOpt (Some j) "access_token" = undefined ->
     "Bearer " ++ bearer = "Bearer undefined" /\
     exists q,
       last (calls (postToBlogger W t html s).2) = Some (Fetch q) /\
       http_headers q = [("Authorization", "Bearer undefined");
                         ("Content-Type", "application/json")]).
Proof.
  intros Hconf Hgranted.
  assert (Hrequest :
            post_request blogId bearer t html =
            {| url := ("https://www.googleapis.com/blogger/v3/blogs/" ++ blogId ++
                       "/posts/?isDraft=false&fetchImages=true&revert=false")%string;
               http_method := "POST";
               http_headers := [("Authorization", ("Bearer " ++ bearer)%string);
                                ("Content-Type", "application/json")];
               payload :=
                 JsonBody
                   (JObj match t with
                         | Some v => [("kind", JStr "blogger#post"); ("title", v);
                                      ("content", JStr html)]
                         | None => [("kind", JStr "blogger#post");
                                    ("content", JStr html)]
                         end);
               redirect := None |})
    by (now destruct t).
  assert (Hcalls :
            calls (postToBlogger W t html s).2 =
            (calls s ++ [Fetch (token_request clientId clientSecret refreshToken);
                         Fetch (post_request blogId bearer t html)])%list).
  { rewrite (granted_run W _ _ _ _ Hconf t html s bearer Hgranted). cbn zeta.
    assert (Hlog : calls (logged (Fetch (post_request blogId bearer t html))
                     (logged (Fetch (token_request clientId clientSecret refreshToken)) s))
                   = (calls s ++ [Fetch (token_request clientId clientSecret refreshToken);
                                  Fetch (post_request blogId bearer t html)])%list)
      by (cbn; now rewrite <- app_assoc).
    destruct (fetch W (post_request blogId bearer t html)) as [e | r];
      [exact Hlog |].
    destruct (JSON_parse W (content r)) as [e | data]; [exact Hlog |].
    destruct (negb (ok r)).
    + destruct (if truthy W _ then _ else _); exact Hlog.
    + destruct (Get data "url") as [e | u]; [exact Hlog |].
      destruct (Get data "id"); exact Hlog. }
  split.
  - rewrite Hcalls. now rewrite Hrequest.
  - intros r j Hf Hj Hnone.
    assert (Hb : bearer = "undefined").
    { destruct Hgranted as (r' & j' & Hf' & _ & Hj' & _ & Hbearer).
      rewrite Hf in Hf'. injection Hf' as <-.
      rewrite Hj in Hj'. injection Hj' as <-.
      rewrite Hnone in Hbearer. now injection Hbearer. }
    split; [now rewrite Hb |].
    exists (post_request blogId bearer t html). split.
    + rewrite Hcalls.
      change [Fetch (token_request clientId clientSecret refreshToken);
              Fetch (post_request blogId bearer t html)]
        with ([Fetch (token_request clientId clientSecret refreshToken)] ++
              [Fetch (post_request blogId bearer t html)])%list.
      rewrite app_assoc. apply last_snoc.
    + rewrite Hrequest, Hb. reflexivity.
Qed.


(** X17. With the configuration complete and the token granted, when the
    platform accepts the post with a JSON body other than null, the
    publisher returns the url and the id of that body, each undefined
    when the body lacks it. When the body is the literal null the
    publisher throws after the post was submitted. *)
Theorem accepted_post_returns_its_url (W : World)
  (clientId clientSecret refreshToken blogId : string)
  (t : jsval) (html : string) (s : State) (bearer : string)
  (r : FetchResponse) (data : json) :
  configured W clientId clientSecret refreshToken blogId ->
  token_granted W clientId clientSecret refreshToken bearer ->
  fetch W (post_request blogId bearer t html) = inr r ->
  ok r = true ->
  JSON_parse W (content r) = inr data ->
  (data <> JNull ->
   (postToBlogger W t html s).1 =
     Normal {| post_url := GetOpt (Some data) "url";
               post_id := GetOpt (Some data) "id" |}) /\
  (data = JNull ->
   (postToBlogger W t html s).1 =
     Throw (TypeError "Cannot read properties of null (reading 'url')") /\
   Fetch (post_request blogId bearer t html)
     ∈ calls (postToBlogger W t html s).2).
Proof.
  intros Hconf Hgranted Hf Hok Hdata.
  rewrite (granted_run W _ _ _ _ Hconf t html s bearer Hgranted). cbn zeta.
  rewrite Hf, Hdata, Hok. cbn [negb]. split.
  - intros Hnull. destruct data; [contradiction | reflexivity ..].
  - intros ->. cbn. split; [reflexivity |].
    rewrite !elem_of_app, !list_elem_of_singleton. auto.
Qed.

(** X18. When publishing is requested, a 200 answer means that the post
    was submitted: the log is the calls of the artifacts followed by the
    token exchange and then the creation of the post, and the
    bloggerPostUrl of the answer is the url the publisher returned. *)
Theorem published_answer_ends_with_post (W : World) (req : NextApiRequest)
  (b : InputBody.t) :
  body req = Some b ->
  truthy_flag (InputBody.postToBlogger b) = true ->
  statusCode (res (serve W req)) = 200 ->
  exists before tok pst p t h i s s',
    calls (serve W req) = (before ++ [tok; pst])%list /\
    Forall artifact_event before /\ token_event tok /\ post_event pst /\
    postToBlogger W t h s = (Normal p, s') /\
    sent (res (serve W req)) = Some (ResultBody t h i (post_url p)).
Proof.
  intros Hb Hflag H200.
  destruct (serve_result W req)
    as [(b' & sm & img & html & s1 & u & s2 & _ & Hb' & _ & Ha & Hp & Hs) | [H _]];
    [| contradiction].
  assert (b' = b) as -> by congruence.
  destruct (stage_artifacts W b init) as [(new & Hc & Hnew) _].
  rewrite Ha in Hc. cbn in Hc.
  unfold publish in Hp. rewrite Hflag in Hp. unfold mbind, M_bind in Hp.
  destruct (postToBlogger W (title sm) html s1) as [[p | e |] s2'] eqn:Hpost;
    [| discriminate ..].
  injection Hp as <- <-.
  destruct (postToBlogger_shape W _ _ _ _ _ Hpost)
    as (_ & _ & [(_ & e & He) | [(tok & _ & _ & e & He)
                                | (tok & pst & Htok & Hpst & Hcalls)]]);
    [discriminate .. |].
  exists new, tok, pst, p, (title sm), html, img, s1, s2'.
  rewrite Hs. cbn. rewrite Hcalls, Hc. repeat split; assumption.
Qed.

(** *** The messages of the route *)

Lemma sourceText_return_message (W : World) b s s' :
  sourceText W b s = (Return, s') ->
  exists m, sent (res s') = Some (ErrorBody m) /\ m <> "".
Proof.
  unfold sourceText.
  repeat match goal with
         | |- context [if ?c then _ else _] => destruct c
         end;
    try (rewrite reply_run; intros [= <-]; eexists; split;
         [reflexivity | discriminate]);
    try discriminate.
  - intros H. destruct (io_fetchTextFromLink W (default "" (InputBody.link b)) s)
      as [Hr _]. rewrite H in Hr. now contradiction Hr.
  - intros H.
    destruct (io_transcribeFromUrl W (default "" (InputBody.voiceUrl b)) s)
      as [Hr _]. rewrite H in Hr. now contradiction Hr.
Qed.

Lemma artifacts_return_message (W : World) b s s' :
  artifacts W b s = (Return, s') ->
  exists m, sent (res s') = Some (ErrorBody m) /\ m <> "".
Proof.
  unfold artifacts. unfold mbind at 1. unfold M_bind at 1.
  destruct (sourceText W b s) as [[text | e |] s1] eqn:Hsrc; [| discriminate |].
  - intros H.
    assert (Hio : io artifact_event
                    (sm ← summarizeFinancePortuguese W text;
                     imageDataUrl ← generateImageBase64 W (title sm);
                     html ← render W imageDataUrl sm;
                     mret (sm, imageDataUrl, html))).
    { apply io_bind;
        [eapply io_weaken; [| apply io_summarizeFinancePortuguese];
         unfold artifact_event; auto | intros sm].
      apply io_bind;
        [eapply io_weaken; [| apply io_generateImageBase64];
         unfold artifact_event; auto | intros img].
      apply io_bind; [apply io_render | intros html; apply io_ret]. }
    destruct (Hio s1) as [Hr _]. rewrite H in Hr. now contradiction Hr.
  - intros [= <-]. now apply (sourceText_return_message W b s).
Qed.

Lemma error_message_nonempty (W : World) (req : NextApiRequest) (m : string) :
  sent (res (serve W req)) = Some (ErrorBody m) -> m <> "".
Proof.
  destruct (serve_cases W req)
    as [[_ ->] | [(_ & _ & ->) | (b & Hm & Hb & Ht)]];
    [cbn; intros [= <-]; discriminate .. |].
  rewrite (serve_post W req b Hm Hb Ht).
  assert (Hfailed : forall e s,
            sent (res (failed e s)) = Some (ErrorBody m) -> m <> "").
  { intros e s. cbn. unfold truthy_string.
    destruct (String.eqb_spec (message e) ""); cbn; intros [= <-];
      [discriminate | assumption]. }
  destruct (artifacts W b init) as [[[[sm img] html] | e |] s1] eqn:Ha.
  - destruct (io_publish W b (title sm) html s1) as (Hr & _).
    destruct (publish W b (title sm) html s1) as [[u | e |] s2];
      cbn in Hr; [discriminate | apply Hfailed | contradiction].
  - apply Hfailed.
  - destruct (artifacts_return_message W b init s1 Ha) as (m' & Hsent & Hne).
    rewrite Hsent. now intros [= <-].
Qed.

(** X19. The message of an error body is never the empty string: the
    validation messages and the message of a wrong method are fixed
    texts, and a 500 carries the message of the error or, when that is
    empty, the fallback text. *)
Theorem error_message_is_not_empty (W : World) (req : NextApiRequest)
  (m : string) :
  sent (res (serve W req)) = Some (ErrorBody m) -> m <> "".
Proof. apply error_message_nonempty. Qed.

End Coverage.

(** ** Further properties of the form *)
Module FormCoverage.
Import JS Index Delivery.

(** X20. Whatever the server answers, a submission leaves the four input
    fields of the form as they were, and it ends with at most one of an
    error and a result: when an error is shown there is no result, when a
    result is shown there is no error, and in both cases the in-flight
    flag is cleared and no exception escaped. What an earlier submission
    left is cleared when an exception escapes. *)
Theorem submission_outcome_is_exclusive (B : Browser) (st : Home) :
  inputType (state (handleSubmit B st)) = inputType st /\
  text (state (handleSubmit B st)) = text st /\
  voiceUrl (state (handleSubmit B st)) = voiceUrl st /\
  link (state (handleSubmit B st)) = link st /\
  (error (state (handleSubmit B st)) <> JNull ->
   result (state (handleSubmit B st)) = JNull /\
   posting (state (handleSubmit B st)) = false /\
   uncaught (handleSubmit B st) = None) /\
  (result (state (handleSubmit B st)) <> JNull ->
   error (state (handleSubmit B st)) = JNull /\
   posting (state (handleSubmit B st)) = false /\
   uncaught (handleSubmit B st) = None) /\
  (uncaught (handleSubmit B st) <> None ->
   error (state (handleSubmit B st)) = JNull /\
   result (state (handleSubmit B st)) = JNull).
Proof.
  unfold handleSubmit.
  destruct (fetch B (submit_request st)) as [e | r]; [now cbn |].
  destruct (negb (Process.ok r)).
  - destruct (Get _ "error") as [e | err]; cbn; [now repeat split |].
    repeat split; try reflexivity; try contradiction.
  - destruct (JSON_parse B (Process.content r)) as [e | data]; cbn;
      now repeat split.
Qed.

(** X21. When the request does not get through (fetch throws), or a
    success answer is not JSON, the exception escapes the submission and
    the form stays in its in-flight state: the flag that disables the
    button is still set, and neither an error nor a result is shown. *)
Theorem failure_leaves_form_in_flight (B : Browser) (st : Home) (e : Exn) :
  fetch B (submit_request st) = inl e \/
  (exists r, fetch B (submit_request st) = inr r /\ Process.ok r = true /\
             JSON_parse B (Process.content r) = inl e) ->
  handleSubmit B st =
    {| state := in_flight st; requests := [submit_request st];
       uncaught := Some e |} /\
  posting (in_flight st) = true /\
  error (in_flight st) = JNull /\ result (in_flight st) = JNull.
Proof.
  intros H. split; [| now cbn]. unfold handleSubmit, in_flight.
  destruct H as [-> | (r & -> & Hok & Hparse)]; [reflexivity |].
  now rewrite Hok, Hparse.
Qed.

(** X22. When the server answers with a status outside 200-299, the form
    shows the error field of the body when the body is a JSON object with
    a non-empty text there, and its own fallback text when the body is
    not JSON or is an object without an error field; the in-flight flag
    is cleared and no result is shown. *)
Theorem rejected_answer_shows_error (B : Browser) (st : Home)
  (r : Process.FetchResponse) :
  fetch B (submit_request st) = inr r -> Process.ok r = false ->
  (forall fields m,
     JSON_parse B (Process.content r) = inr (JObj fields) ->
     own "error" fields = Some (JStr m) -> m <> "" ->
     handleSubmit B st =
       {| state := setError (JStr m) (setPosting false (in_flight st));
          requests := [submit_request st]; uncaught := None |}) /\
  (forall fields,
     JSON_parse B (Process.content r) = inr (JObj fields) ->
     own "error" fields = None ->
     handleSubmit B st =
       {| state := setError (JStr "Erro ao processar.")
                     (setPosting false (in_flight st));
          requests := [submit_request st]; uncaught := None |}) /\
  (forall e,
     JSON_parse B (Process.content r) = inl e ->
     handleSubmit B st =
       {| state := setError (JStr "Erro ao processar.")
                     (setPosting false (in_flight st));
          requests := [submit_request st]; uncaught := None |}).
Proof.
  intros Hf Hok. unfold handleSubmit, in_flight. rewrite Hf, Hok. cbn [negb].
  split; [| split].
  - intros fields m -> Herr Hne. cbn. rewrite Herr. cbn.
    unfold truthy_string. destruct (String.eqb_spec m "");
      [contradiction | reflexivity].
  - intros fields -> Herr. cbn. now rewrite Herr.
  - intros e ->. reflexivity.
Qed.

(** X23. The form and the route together: when the route answers a
    submission with an error body and the network carries this answer
    (its status and its body as JSON) back to the form, the form shows
    the message of the route and never its own fallback text, clears the
    in-flight flag and shows no result. *)
Theorem form_shows_route_error (B : Browser) (W : Process.World) (st : Home)
  (r : Process.FetchResponse) (m : string) :
  fetch B (submit_request st) = inr r ->
  Process.status r = Process.statusCode (Process.res (Process.serve W (arrives st))) ->
  Process.sent (Process.res (Process.serve W (arrives st)))
    = Some (Process.ErrorBody m) ->
  JSON_parse B (Process.content r) = inr (error_json m) ->
  handleSubmit B st =
    {| state := setError (JStr m) (setPosting false (in_flight st));
       requests := [submit_request st]; uncaught := None |}.
Proof.
  intros Hf Hstatus Hsent Hparse.
  assert (Hne : m <> "")
    by exact (Coverage.error_message_nonempty W (arrives st) m Hsent).
  assert (Hok : Process.ok r = false).
  { unfold Process.ok. rewrite Hstatus.
    destruct (ProcessFacts.serve_result W (arrives st))
      as [(b & sm & img & html & s1 & u & s2 & _ & _ & _ & _ & _ & Hs) | [H _]].
    - rewrite Hs in Hsent. discriminate.
    - destruct (Coverage.serve_shape W (arrives st))
        as [(Hc & _) | [(m' & Hc & _) | [(e & before & Hc & _)
                                        | (t & h & i & u & Hc & _)]]];
        rewrite Hc; try reflexivity. now rewrite Hc in H. }
  unfold handleSubmit, in_flight. rewrite Hf, Hok. cbn [negb].
  rewrite Hparse. cbn. unfold truthy_string.
  destruct (String.eqb_spec m ""); [contradiction | reflexivity].
Qed.

End FormCoverage.

(** ** The further properties on concrete scenarios *)
Module CoverageWitness.
Import JS Process Observation Delivery Scenario Failures Coverage.

Lemma full_configuration net chat images :
  configured (world net chat images) "client-1" "s3cret" "1//refresh" "4242".
Proof. repeat split; first [reflexivity | discriminate]. Qed.

Lemma happy_token net chat images :
  net (token_request "client-1" "s3cret" "1//refresh")
  = inr {| status := 200; content := token_json |} ->
  token_granted (world net chat images) "client-1" "s3cret" "1//refresh" "ya29.a0".
Proof.
  intros H. exists {| status := 200; content := token_json |},
    (JObj [("access_token", JStr "ya29.a0")]).
  repeat split; first [exact H | reflexivity | discriminate].
Qed.

Lemma link_fetch_failure_witness :
  answered page_gone (post link_body) 500
    (ErrorBody "Falha ao buscar link: 404")
    [Fetch (GET "https://example.com/selic" (Some "follow"));
     ConsoleError (Error "Falha ao buscar link: 404")].
Proof.
  apply (link_fetch_failure page_gone (post link_body) link_body
           "https://example.com/selic" {| status := 404; content := "Not Found" |});
    first [reflexivity | discriminate].
Defined.

Lemma audio_download_failure_witness :
  answered audio_gone (post voice_body) 500
    (ErrorBody "Falha ao baixar ?udio: 503")
    [Fetch (GET "https://example.com/audio.ogg" None);
     ConsoleError (Error "Falha ao baixar ?udio: 503")].
Proof.
  apply (audio_download_failure audio_gone (post voice_body) voice_body
           "https://example.com/audio.ogg"
           {| status := 503; content := "Unavailable" |});
    first [reflexivity | discriminate].
Defined.

Lemma transcript_is_summarized_witness :
  (exists rest,
    calls (serve happy (post voice_body)) =
      Fetch (GET "https://example.com/audio.ogg" None)
      :: Transcription (transcription_of "OggS")
      :: ChatCompletion (chat_params "O Copom elevou a Selic.") :: rest) /\
  exists p rest lead,
    calls (serve happy (post voice_body)) =
      Fetch (GET "https://example.com/audio.ogg" None)
      :: Transcription (transcription_of "OggS")
      :: ChatCompletion p :: rest /\
    chat_model p = "gpt-4o-mini" /\
    messages p =
      [("system", "Voc? escreve resumos para um blog financeiro brasileiro.");
       ("user",
        lead ++ "CONTE?DO:" ++
        String "010" (String "034" (String "034" (String "034" (String "010" "O Copom elevou a Selic.")))) ++
        String "010" (String "034" (String "034" (String "034" ""))))].
Proof.
  apply (transcript_is_summarized happy (post voice_body) voice_body
           "https://example.com/audio.ogg"
           {| status := 200; content := "OggS" |} "O Copom elevou a Selic.");
    first [reflexivity | discriminate].
Defined.

Lemma text_is_used_verbatim_witness :
  sourceText happy (text_body None) init = (Normal copom, init) /\
  (statusCode (res (serve happy (post (text_body None)))) = 200 \/
   statusCode (res (serve happy (post (text_body None)))) = 500) /\
  (exists rest,
    calls (serve happy (post (text_body None)))
    = ChatCompletion (chat_params copom) :: rest) /\
  exists p rest lead,
    calls (serve happy (post (text_body None))) = ChatCompletion p :: rest /\
    chat_model p = "gpt-4o-mini" /\
    messages p =
      [("system", "Voc? escreve resumos para um blog financeiro brasileiro.");
       ("user",
        lead ++ "CONTE?DO:" ++
        String "010" (String "034" (String "034" (String "034" (String "010" copom)))) ++
        String "010" (String "034" (String "034" (String "034" ""))))].
Proof.
  apply (text_is_used_verbatim happy (post (text_body None)) (text_body None)
           copom);
    first [reflexivity | discriminate].
Defined.

Lemma malformed_request_is_rejected_witness :
  answered happy {| method := Some "POST"; body := None |} 400
    (ErrorBody "Par?metros inv?lidos") [].
Proof.
  apply (malformed_request_is_rejected happy); [reflexivity | now left].
Defined.

Lemma empty_form_is_rejected_witness :
  answered happy (arrives pristine) 400 (ErrorBody "Texto ausente") [].
Proof. apply (empty_form_is_rejected happy pristine). reflexivity. Defined.

Lemma filled_form_passes_validation_witness :
  statusCode (res (serve happy (arrives filled))) = 200 \/
  statusCode (res (serve happy (arrives filled))) = 500.
Proof. apply (filled_form_passes_validation happy filled). discriminate. Defined.

Lemma image_failure_stops_pipeline_witness :
  answered no_picture (post (text_body (Some true))) 500
    (ErrorBody "Falha ao gerar imagem")
    ([ChatCompletion (chat_params copom)] ++
     [ImageGeneration (image_params "Selic em alta");
      ConsoleError (Error "Falha ao gerar imagem")]).
Proof.
  apply (image_failure_stops_pipeline no_picture (post (text_body (Some true)))
           (text_body (Some true)) copom init
           {| title := selic;
              summaryHtml := Some (JStr "<p>O Copom elevou a Selic.</p>") |}
           {| res := res init; calls := [ChatCompletion (chat_params copom)] |}
           "Selic em alta" None);
    reflexivity.
Defined.

Lemma image_is_png_data_url_witness :
  exists t h u b64,
    sent (res (serve happy (post (text_body None)))) =
      Some (ResultBody t h ("data:image/png;base64," ++ b64) u) /\
    b64 <> "".
Proof. apply (image_is_png_data_url happy (post (text_body None))). reflexivity. Defined.

Lemma empty_completion_is_empty_object_witness :
  summarizeFinancePortuguese no_content copom init =
    (Normal {| title := undefined; summaryHtml := undefined |},
     logged (ChatCompletion (chat_params copom)) init) /\
  ImageGeneration (image_params "undefined")
    ∈ calls (serve no_content (post (text_body None))) /\
  (forall t h i u,
     sent (res (serve no_content (post (text_body None))))
       = Some (ResultBody t h i u) ->
     t = undefined /\ h = html_template i "undefined" "undefined").
Proof.
  apply (empty_completion_is_empty_object no_content (post (text_body None))
           (text_body None) copom init None);
    reflexivity.
Defined.


Lemma token_answer_must_be_json_witness :
  postToBlogger token_gateway selic "<p>Selic</p>" init =
    (Throw (SyntaxError "Unexpected token in JSON"),
     logged (Fetch (token_request "client-1" "s3cret" "1//refresh")) init).
Proof.
  apply (token_answer_must_be_json token_gateway
           "client-1" "s3cret" "1//refresh" "4242" selic "<p>Selic</p>" init
           {| status := 502; content := "<html>Bad Gateway</html>" |});
    [apply full_configuration | reflexivity | reflexivity].
Defined.

Lemma missing_token : token_granted token_missing "client-1" "s3cret" "1//refresh" "undefined".
Proof.
  exists {| status := 200; content := "{}" |}, (JObj []).
  repeat split; first [reflexivity | discriminate].
Qed.

Lemma granted_token_is_the_bearer_witness :
  calls (postToBlogger happy selic "<p>Selic</p>" init).2 =
    ([] ++
     [Fetch (token_request "client-1" "s3cret" "1//refresh");
      Fetch {| url := "https://www.googleapis.com/blogger/v3/blogs/4242/posts/?isDraft=false&fetchImages=true&revert=false";
               http_method := "POST";
               http_headers := [("Authorization", "Bearer ya29.a0");
                                ("Content-Type", "application/json")];
               payload :=
                 JsonBody (JObj [("kind", JStr "blogger#post");
                                 ("title", JStr "Selic em alta");
                                 ("content", JStr "<p>Selic</p>")]);
               redirect := None |}])%list /\
  exists q,
    last (calls (postToBlogger token_missing undefined "<p>Selic</p>" init).2)
      = Some (Fetch q) /\
    http_headers q = [("Authorization", "Bearer undefined");
                      ("Content-Type", "application/json")].
Proof.
  split.
  - apply (granted_token_is_the_bearer (world network summary picture)
             "client-1" "s3cret" "1//refresh" "4242" selic "<p>Selic</p>" init
             "ya29.a0" (full_configuration _ _ _) (happy_token _ _ _ eq_refl)).
  - apply (proj2 (granted_token_is_the_bearer token_missing
                    "client-1" "s3cret" "1//refresh" "4242" undefined
                    "<p>Selic</p>" init
                    "undefined" (full_configuration _ _ _) missing_token)
             {| status := 200; content := "{}" |} (JObj []));
      reflexivity.
Defined.


Lemma accepted_post_returns_its_url_witness :
  (postToBlogger (world network summary picture) selic "<p>Selic</p>" init).1 =
    Normal {| post_url := Some (JStr "https://blog.example/2026/11/selic.html");
              post_id := Some (JStr "7") |} /\
  (postToBlogger post_null selic "<p>Selic</p>" init).1 =
    Throw (TypeError "Cannot read properties of null (reading 'url')").
Proof.
  split.
  - apply (proj1 (accepted_post_returns_its_url (world network summary picture)
                    "client-1" "s3cret" "1//refresh" "4242" selic "<p>Selic</p>"
                    init "ya29.a0" {| status := 200; content := post_json |}
                    (JObj [("url", JStr "https://blog.example/2026/11/selic.html");
                           ("id", JStr "7")])
                    (full_configuration _ _ _) (happy_token _ _ _ eq_refl)
                    eq_refl eq_refl eq_refl)).
    discriminate.
  - apply (proj2 (accepted_post_returns_its_url post_null
                    "client-1" "s3cret" "1//refresh" "4242" selic "<p>Selic</p>"
                    init "ya29.a0" {| status := 200; content := "null" |} JNull
                    (full_configuration _ _ _) (happy_token _ _ _ eq_refl)
                    eq_refl eq_refl eq_refl)).
    reflexivity.
Defined.

Lemma published_answer_ends_with_post_witness :
  exists before tok pst p t h i s s',
    calls (serve happy (post (text_body (Some true))))
    = (before ++ [tok; pst])%list /\
    Forall artifact_event before /\ token_event tok /\ post_event pst /\
    postToBlogger happy t h s = (Normal p, s') /\
    sent (res (serve happy (post (text_body (Some true)))))
    = Some (ResultBody t h i (post_url p)).
Proof.
  apply (published_answer_ends_with_post happy (post (text_body (Some true)))
           (text_body (Some true)));
    reflexivity.
Defined.

Lemma error_message_is_not_empty_witness : "Texto ausente" <> "".
Proof.
  apply (error_message_is_not_empty happy (post (empty_body "text"))).
  reflexivity.
Defined.

End CoverageWitness.

Module FormWitness.
Import JS Index Delivery Scenario Failures FormCoverage.

Lemma failure_leaves_form_in_flight_witness :
  handleSubmit (browser (inl (TypeError "fetch failed"))) filled =
    {| state := in_flight filled; requests := [submit_request filled];
       uncaught := Some (TypeError "fetch failed") |} /\
  posting (in_flight filled) = true /\
  error (in_flight filled) = JNull /\ result (in_flight filled) = JNull.
Proof.
  apply (failure_leaves_form_in_flight (browser (inl (TypeError "fetch failed")))
           filled (TypeError "fetch failed")).
  now left.
Defined.

Lemma rejected_answer_shows_error_witness :
  handleSubmit (server_said 400 text_missing_json) pristine =
    {| state := setError (JStr "Texto ausente") (setPosting false (in_flight pristine));
       requests := [submit_request pristine]; uncaught := None |} /\
  handleSubmit (server_said 502 "<html>Bad Gateway</html>") pristine =
    {| state := setError (JStr "Erro ao processar.")
                  (setPosting false (in_flight pristine));
       requests := [submit_request pristine]; uncaught := None |}.
Proof.
  split.
  - apply (proj1 (rejected_answer_shows_error (server_said 400 text_missing_json)
                    pristine {| Process.status := 400;
                                Process.content := text_missing_json |}
                    eq_refl eq_refl)
             [("error", JStr "Texto ausente")] "Texto ausente");
      first [reflexivity | discriminate].
  - apply (proj2 (proj2 (rejected_answer_shows_error
                           (server_said 502 "<html>Bad Gateway</html>") pristine
                           {| Process.status := 502;
                              Process.content := "<html>Bad Gateway</html>" |}
                           eq_refl eq_refl))
             (SyntaxError "Unexpected token in JSON")).
    reflexivity.
Defined.

(** The pristine form against the happy route: the validation message of
    the route is what the form shows. *)
Lemma form_shows_route_error_witness :
  handleSubmit (server_said 400 text_missing_json) pristine =
    {| state := setError (JStr "Texto ausente") (setPosting false (in_flight pristine));
       requests := [submit_request pristine]; uncaught := None |}.
Proof.
  apply (form_shows_route_error (server_said 400 text_missing_json) happy pristine
           {| Process.status := 400; Process.content := text_missing_json |}
           "Texto ausente");
    reflexivity.
Defined.

End FormWitness.
